(** * The chat route handlers of the mini chat application

    The repository holds three revisions of the server handler
    [app/api/chat/route.ts]:

    - the provider route (OpenAI / Gemini dispatch),
    - the mock route that builds its id with [crypto.randomUUID()],
    - the mock route with the safe [generateId].

    Each handler is embedded as a function from the parsed request and the
    host it runs on to a response, in a small state-and-exception monad:
    the state records the outbound calls, exceptions are what the blanket
    [try { ... } catch] of every handler turns into a 500. *)

From Equations Require Import Equations.
From Stdlib Require Import String Ascii DecimalString.
From Stdlib Require Import List NArith ZArith Arith Bool Lia.
From Stdlib Require SpecFloat QArith_base.
Import ListNotations.

Local Set Warnings "-register-all".

(** ** JavaScript strings *)

(** A JavaScript string is a sequence of UTF-16 code units; [length] counts
    code units. *)
Definition jsstring := list N.

(** A source literal made of ASCII characters. *)
Definition lit (s : string) : jsstring :=
  map N_of_ascii (list_ascii_of_string s).

Definition dquote : jsstring := [34%N].
Definition newline : jsstring := [10%N].

Definition jsstring_eqb (a b : jsstring) : bool :=
  if list_eq_dec N.eq_dec a b then true else false.

(** [WhiteSpace] and [LineTerminator] of ECMAScript: the characters that
    [String.prototype.trim] strips and that the class [\s] matches. *)
Definition is_space (c : N) : bool :=
  ((9 <=? c) && (c <=? 13) || (c =? 32) || (c =? 160) || (c =? 5760)
   || (8192 <=? c) && (c <=? 8202) || (c =? 8232) || (c =? 8233)
   || (c =? 8239) || (c =? 8287) || (c =? 12288) || (c =? 65279))%N.

Fixpoint dropWhile {A : Type} (f : A -> bool) (l : list A) : list A :=
  match l with
  | [] => []
  | x :: r => if f x then dropWhile f r else l
  end.

Definition trimStart (s : jsstring) : jsstring := dropWhile is_space s.
Definition trimEnd (s : jsstring) : jsstring := rev (dropWhile is_space (rev s)).

(** [s.trim()] *)
Definition trim (s : jsstring) : jsstring := trimEnd (trimStart s).

(** [s.split(/\s+/)]: the scan of [RegExp.prototype[@@split]].  [piece] is
    the text since the end of the last separator (kept reversed); at a
    white-space character the greedy [\s+] consumes the whole run, the
    piece is emitted and the scan resumes after the run; the text after
    the last separator is emitted at the end.  The empty string gives one
    empty piece, since [\s+] does not match it. *)
Equations? split_scan (piece : jsstring) (s : jsstring) : list jsstring
  by wf (length s) lt :=
  split_scan piece [] := [rev piece];
  split_scan piece (c :: r) with is_space c := {
    | true := rev piece :: split_scan [] (dropWhile is_space r);
    | false := split_scan (c :: piece) r }.
Proof.
  assert (shorter : forall l, length (dropWhile is_space l) <= length l).
  { induction l as [|x l IH]; simpl; [lia|].
    destruct (is_space x); simpl; lia. }
  specialize (shorter r). simpl. lia.
Qed.

Definition split_whitespace (s : jsstring) : list jsstring := split_scan [] s.

(** [Boolean(s)] for a string: the empty string is falsy. *)
Definition Boolean_str (s : jsstring) : bool :=
  match s with [] => false | _ => true end.

(** [`${n}`] for a non-negative integer below 10^21: its decimal digits. *)
Definition decimal (n : nat) : jsstring :=
  lit (NilZero.string_of_uint (Nat.to_uint n)).

(** [haystack.includes(needle)] *)
Fixpoint starts_with (needle s : jsstring) : bool :=
  match needle, s with
  | [], _ => true
  | _ :: _, [] => false
  | a :: n', b :: s' => (a =? b)%N && starts_with n' s'
  end.

Fixpoint includes (s needle : jsstring) : bool :=
  starts_with needle s ||
  match s with
  | [] => false
  | _ :: r => includes r needle
  end.

(** ** The mock reply *)

Module MockReply.

(** [prompt.split(/\s+/).filter(Boolean).length] *)
Definition wordCount (prompt : jsstring) : nat :=
  length (filter Boolean_str (split_whitespace prompt)).

(** [prompt.length] *)
Definition charCount (prompt : jsstring) : nat := length prompt.

(** The template literal [replyContent]. *)
Definition replyContent (prompt : jsstring) (wordCount charCount : nat) : jsstring :=
  lit "You said: " ++ dquote ++ prompt ++ dquote ++ newline ++
  newline ++
  lit "Here is a simple analysis of your message:" ++ newline ++
  lit "- Approximate word count: " ++ decimal wordCount ++ newline ++
  lit "- Character count (including spaces): " ++ decimal charCount ++ newline ++
  newline ++
  lit "This is mini, a mock AI assistant. Replace the logic in /app/api/chat/route.ts with a real LLM API call (OpenAI, Gemini, etc.) to get smarter responses.".

End MockReply.

(** ** JSON values and property reads *)

(** What [await req.json()] resolves to.  An object keeps the entries that
    [JSON.parse] left, one per key; a number is an IEEE 754 double. *)
Inductive JValue : Type :=
| JNull
| JBool (b : bool)
| JNum (x : SpecFloat.spec_float)
| JStr (s : jsstring)
| JArr (items : list JValue)
| JObj (fields : list (jsstring * JValue)).

(** A JavaScript value read from the body: [None] is [undefined]. *)
Definition JSValue := option JValue.

(** The outcome of an expression that may throw. *)
Inductive Result (A : Type) : Type :=
| Ok (a : A)
| Throw.
Arguments Ok {A} a.
Arguments Throw {A}.

Fixpoint own_property (key : jsstring) (fields : list (jsstring * JValue)) : JSValue :=
  match fields with
  | [] => None
  | (k, v) :: rest => if jsstring_eqb k key then Some v else own_property key rest
  end.

(** [v.key] for the keys the handlers read ([provider], [messages],
    [prompt], [role], [content]): reading a property of [null] throws a
    TypeError; strings, numbers, booleans and arrays have no property of
    these names, so the read gives [undefined]. *)
Definition get_field (v : JValue) (key : string) : Result JSValue :=
  match v with
  | JNull => Throw
  | JObj fields => Ok (own_property (lit key) fields)
  | _ => Ok None
  end.

(** [!!v] *)
Definition truthy (v : JSValue) : bool :=
  match v with
  | None => false
  | Some JNull => false
  | Some (JBool b) => b
  | Some (JNum x) =>
      match x with
      | SpecFloat.S754_zero _ | SpecFloat.S754_nan => false
      | _ => true
      end
  | Some (JStr s) => Boolean_str s
  | Some (JArr _) | Some (JObj _) => true
  end.

(** [v === 'literal'] *)
Definition strict_eq (v : JSValue) (s : string) : bool :=
  match v with
  | Some (JStr t) => jsstring_eqb t (lit s)
  | _ => false
  end.

(** [typeof v === 'string'], giving the string. *)
Definition as_string (v : JSValue) : option jsstring :=
  match v with
  | Some (JStr s) => Some s
  | _ => None
  end.

(** [Array.isArray(v)], giving the elements. *)
Definition Array_isArray (v : JSValue) : option (list JValue) :=
  match v with
  | Some (JArr items) => Some items
  | _ => None
  end.

(** ** Messages and responses *)

Inductive Role : Type := user | assistant | system.

Record ChatMessage : Type := {
  id : jsstring;
  role : Role;
  content : jsstring;
  createdAt : jsstring
}.

(** [ChatSuccessResponse | ChatErrorResponse] *)
Inductive Payload : Type :=
| Success (message : ChatMessage)
| Failure (error : jsstring).

(** [NextResponse.json(payload, { status })] *)
Record Response : Type := NextResponse_json {
  payload : Payload;
  status : nat
}.

(** The request as the handlers see it: [req.json()] resolves to the parsed
    body or rejects when the body is not parseable JSON. *)
Record Request : Type := { json : Result JValue }.

(** ** The provider SDKs *)

Record OpenAIMessage : Type := {
  oa_role : jsstring;
  oa_content : JSValue
}.

Record OpenAIParams : Type := {
  oa_model : jsstring;
  oa_messages : list OpenAIMessage;
  oa_temperature : QArith_base.Q;
  oa_max_tokens : nat
}.

(** [completion.choices[i].message.content] is [string | null]; the handler
    reads it through [?.], so a missing choice or message is allowed for. *)
Record ChoiceMessage : Type := { cm_content : option jsstring }.
Record Choice : Type := { ch_message : option ChoiceMessage }.
Record ChatCompletion : Type := { choices : list Choice }.

Record GeminiContent : Type := {
  gc_role : jsstring;
  gc_parts : list jsstring
}.

(** [result.response.text()] may throw; [None] is a nullish result. *)
Record GenerateContentResult : Type := { response_text : Result (option jsstring) }.

Inductive Outbound : Type :=
| OpenAI_create (apiKey : jsstring) (params : OpenAIParams)
| Gemini_generateContent (apiKey model : jsstring) (contents : list GeminiContent)
| console_error.

(** ** The host *)

(** Everything the handlers obtain from outside: the environment, the
    clock and random sources, the two provider services, and the two
    string built-ins whose tables are not part of the repository.  The
    [nat] argument is the position in the run at which the host is asked,
    so that answers may vary from call to call. *)
Record Host : Type := {
  OPENAI_API_KEY : option jsstring;
  GOOGLE_API_KEY : option jsstring;
  crypto_randomUUID : option (nat -> jsstring);
  Math_random_toString16 : nat -> jsstring;
  Date_now_toString16 : nat -> jsstring;
  Date_toISOString : nat -> jsstring;
  toUpperCase : jsstring -> jsstring;
  Number_toString : SpecFloat.spec_float -> jsstring;
  chat_completions_create : nat -> OpenAIParams -> Result ChatCompletion;
  generateContent : nat -> list GeminiContent -> Result GenerateContentResult
}.

(** ** The handler monad *)

Record State : Type := {
  tick : nat;
  outbound : list Outbound
}.

Definition M (A : Type) : Type := State -> Result A * State.

Definition ret {A : Type} (a : A) : M A := fun st => (Ok a, st).

Definition throw {A : Type} : M A := fun st => (Throw, st).

Definition bind {A B : Type} (m : M A) (k : A -> M B) : M B :=
  fun st =>
    match m st with
    | (Ok a, st') => k a st'
    | (Throw, st') => (Throw, st')
    end.

Definition lift {A : Type} (r : Result A) : M A := fun st => (r, st).

(** A computation that cannot throw: the [catch] block of a handler. *)
Definition Total (A : Type) : Type := State -> A * State.

(** [try { body } catch (error) { handler }] *)
Definition try_catch {A : Type} (body : M A) (handler : Total A) : Total A :=
  fun st =>
    match body st with
    | (Ok a, st') => (a, st')
    | (Throw, st') => handler st'
    end.

Declare Scope handler_scope.
Delimit Scope handler_scope with handler.
Notation "x <- m ;; k" := (bind m (fun x => k))
  (at level 61, m at next level, right associativity) : handler_scope.
Notation "m ;;; k" := (bind m (fun _ => k))
  (at level 61, right associativity) : handler_scope.

(** The host is asked at the current tick, which then advances. *)
Definition ask {A : Type} (f : nat -> A) : M A :=
  fun st => (Ok (f (tick st)), {| tick := S (tick st); outbound := outbound st |}).

Definition emit (o : Outbound) : M unit :=
  fun st => (Ok tt, {| tick := tick st; outbound := outbound st ++ [o] |}).

(** [array.find(f)] and [array.map(f)] with a callback that may throw. *)
Fixpoint js_find {A : Type} (f : A -> Result bool) (l : list A) : Result (option A) :=
  match l with
  | [] => Ok None
  | x :: rest =>
      match f x with
      | Throw => Throw
      | Ok true => Ok (Some x)
      | Ok false => js_find f rest
      end
  end.

Fixpoint js_map {A B : Type} (f : A -> Result B) (l : list A) : Result (list B) :=
  match l with
  | [] => Ok []
  | x :: rest =>
      match f x with
      | Throw => Throw
      | Ok y =>
          match js_map f rest with
          | Throw => Throw
          | Ok ys => Ok (y :: ys)
          end
      end
  end.

Section HostServices.

Variable host : Host.

Local Open Scope handler_scope.

(** [new Date().toISOString()] *)
Definition now_ISO : M jsstring := ask (Date_toISOString host).

(** [crypto.randomUUID()] called directly: a host without it makes the
    call throw. *)
Definition randomUUID : M jsstring :=
  match crypto_randomUUID host with
  | Some uuid => ask uuid
  | None => throw
  end.

(** [generateId] of [app/components/generateId.tsx] (the mock route with
    the safe id carries the same function): the UUID when the host has
    [crypto.randomUUID], else [`${timePart}-${randomPart}`]. *)
Definition generateId : M jsstring :=
  match crypto_randomUUID host with
  | Some uuid => ask uuid
  | None =>
      randomPart <- ask (fun t => skipn 2 (Math_random_toString16 host t)) ;;
      timePart <- ask (Date_now_toString16 host) ;;
      ret (timePart ++ lit "-" ++ randomPart)
  end.

(** [`${v}`] for a value read from a message. *)
Fixpoint ToString (v : JValue) : jsstring :=
  match v with
  | JNull => lit "null"
  | JBool true => lit "true"
  | JBool false => lit "false"
  | JNum x => Number_toString host x
  | JStr s => s
  | JArr items =>
      (fix join (l : list JValue) : jsstring :=
         match l with
         | [] => []
         | x :: rest =>
             (match x with JNull => [] | _ => ToString x end) ++
             (match rest with [] => [] | _ => lit "," ++ join rest end)
         end) items
  | JObj _ => lit "[object Object]"
  end.

Definition template_value (v : JSValue) : jsstring :=
  match v with
  | None => lit "undefined"
  | Some x => ToString x
  end.

(** [v.toUpperCase()] *)
Definition call_toUpperCase (v : JSValue) : Result jsstring :=
  match v with
  | Some (JStr s) => Ok (toUpperCase host s)
  | _ => Throw
  end.

End HostServices.

(** ** The provider route *)

Module ProviderRoute.
Section Route.

Variable host : Host.

Local Open Scope handler_scope.

Definition OPENAI_MODEL : jsstring := lit "gpt-4o-mini".
Definition GEMINI_MODEL : jsstring := lit "gemini-1.5-flash".

(** A client is built from the key when [process.env] has a non-empty
    one; the model keeps the key as the client. *)
Definition getOpenAIClient : option jsstring :=
  match OPENAI_API_KEY host with
  | Some apiKey => if negb (Boolean_str apiKey) then None else Some apiKey
  | None => None
  end.

Definition getGeminiClient : option jsstring :=
  match GOOGLE_API_KEY host with
  | Some apiKey => if negb (Boolean_str apiKey) then None else Some apiKey
  | None => None
  end.

Definition systemPrompt : jsstring :=
  lit "You are mini, a helpful AI assistant. Be concise, clear, and friendly.".

Definition fallback : jsstring := lit "I could not generate a response.".

(** [(m) => m.role === 'user'] *)
Definition is_user (m : JValue) : Result bool :=
  match get_field m "role" with
  | Ok r => Ok (strict_eq r "user")
  | Throw => Throw
  end.

(** [(m) => ({ role: m.role === 'user' ? 'user' : 'assistant', content: m.content })] *)
Definition to_openai (m : JValue) : Result OpenAIMessage :=
  match get_field m "role" with
  | Throw => Throw
  | Ok r =>
      match get_field m "content" with
      | Throw => Throw
      | Ok c =>
          Ok {| oa_role := if strict_eq r "user" then lit "user" else lit "assistant";
                oa_content := c |}
      end
  end.

(** [(m) => ({ text: `${m.role.toUpperCase()}: ${m.content}` })] *)
Definition to_gemini_part (m : JValue) : Result jsstring :=
  match get_field m "role" with
  | Throw => Throw
  | Ok r =>
      match call_toUpperCase host r with
      | Throw => Throw
      | Ok upper =>
          match get_field m "content" with
          | Throw => Throw
          | Ok c => Ok (upper ++ lit ": " ++ template_value host c)
          end
      end
  end.

(** [await client.chat.completions.create(params)] *)
Definition create (client : jsstring) (params : OpenAIParams) : M ChatCompletion :=
  emit (OpenAI_create client params) ;;;
  r <- ask (fun t => chat_completions_create host t params) ;;
  lift r.

(** [await model.generateContent({ contents })] *)
Definition generate (client model : jsstring) (contents : list GeminiContent)
  : M GenerateContentResult :=
  emit (Gemini_generateContent client model contents) ;;;
  r <- ask (fun t => generateContent host t contents) ;;
  lift r.

(** [completion.choices[0]?.message?.content] *)
Definition first_content (completion : ChatCompletion) : option jsstring :=
  match choices completion with
  | [] => None
  | c :: _ =>
      match ch_message c with
      | None => None
      | Some m => cm_content m
      end
  end.

(** [a ?? b] *)
Definition nullish {A : Type} (a : option A) (b : A) : A :=
  match a with
  | Some x => x
  | None => b
  end.

Definition error_json (msg : jsstring) (code : nat) : M Response :=
  ret (NextResponse_json (Failure msg) code).

(** The block under [if (body.provider === 'openai')]. *)
Definition answer_openai (messages : list JValue) : M Response :=
  match getOpenAIClient with
  | None => error_json (lit "OPENAI_API_KEY is not configured on the server") 500
  | Some client =>
      mapped <- lift (js_map to_openai messages) ;;
      let openaiMessages :=
        {| oa_role := lit "system"; oa_content := Some (JStr systemPrompt) |}
        :: mapped in
      completion <- create client
        {| oa_model := OPENAI_MODEL;
           oa_messages := openaiMessages;
           oa_temperature := QArith_base.Qmake 7%Z 10%positive;
           oa_max_tokens := 512 |} ;;
      let content := nullish (first_content completion) fallback in
      new_id <- generateId host ;;
      stamp <- now_ISO host ;;
      ret (NextResponse_json
             (Success {| id := new_id; role := assistant;
                         content := content; createdAt := stamp |}) 200)
  end.

(** The block under [if (body.provider === 'gemini')]. *)
Definition answer_gemini (messages : list JValue) : M Response :=
  match getGeminiClient with
  | None => error_json (lit "GOOGLE_API_KEY is not configured on the server") 500
  | Some client =>
      mapped <- lift (js_map to_gemini_part messages) ;;
      let textParts := systemPrompt :: mapped in
      result <- generate client GEMINI_MODEL
        [{| gc_role := lit "user"; gc_parts := textParts |}] ;;
      text <- lift (response_text result) ;;
      let responseText := nullish text fallback in
      new_id <- generateId host ;;
      stamp <- now_ISO host ;;
      ret (NextResponse_json
             (Success {| id := new_id; role := assistant;
                         content := responseText; createdAt := stamp |}) 200)
  end.

(** The body of the [try] block. *)
Definition handle (req : Request) : M Response :=
  body <- lift (json req) ;;
  provider <- lift (get_field body "provider") ;;
  if negb (truthy provider)
     || (negb (strict_eq provider "openai") && negb (strict_eq provider "gemini"))
  then
    error_json (lit "Invalid provider, must be " ++ dquote ++ lit "openai" ++ dquote
                ++ lit " or " ++ dquote ++ lit "gemini" ++ dquote) 400
  else
    body_messages <- lift (get_field body "messages") ;;
    match Array_isArray body_messages with
    | None => error_json (lit "Messages array is required and cannot be empty") 400
    | Some messages =>
        if length messages =? 0 then
          error_json (lit "Messages array is required and cannot be empty") 400
        else
          latestUser <- lift (js_find is_user (rev messages)) ;;
          if negb (truthy latestUser) then
            error_json (lit "At least one user message is required") 400
          else if strict_eq provider "openai" then answer_openai messages
          else if strict_eq provider "gemini" then answer_gemini messages
          else error_json (lit "Unsupported provider") 400
    end.

Definition POST (req : Request) : Total Response :=
  try_catch (handle req)
    (fun st => (NextResponse_json (Failure (lit "Internal server error")) 500, st)).

End Route.
End ProviderRoute.

(** ** The mock route, id from [crypto.randomUUID()] *)

Module MockRoute.
Section Route.

Variable host : Host.

Local Open Scope handler_scope.

Definition handle (req : Request) : M Response :=
  body <- lift (json req) ;;
  body_prompt <- lift (get_field body "prompt") ;;
  match as_string body_prompt with
  | None => ret (NextResponse_json (Failure (lit "Prompt is required")) 400)
  | Some raw =>
      if length (trim raw) =? 0 then
        ret (NextResponse_json (Failure (lit "Prompt is required")) 400)
      else
        let prompt := trim raw in
        let wordCount := MockReply.wordCount prompt in
        let charCount := MockReply.charCount prompt in
        let replyContent := MockReply.replyContent prompt wordCount charCount in
        new_id <- randomUUID host ;;
        stamp <- now_ISO host ;;
        ret (NextResponse_json
               (Success {| id := new_id; role := assistant;
                           content := replyContent; createdAt := stamp |}) 200)
  end.

Definition POST (req : Request) : Total Response :=
  try_catch (handle req)
    (fun st => (NextResponse_json (Failure (lit "Internal server error")) 500, st)).

End Route.
End MockRoute.

(** ** The mock route with the safe [generateId] *)

Module MockRouteSafeId.
Section Route.

Variable host : Host.

Local Open Scope handler_scope.

Definition handle (req : Request) : M Response :=
  body <- lift (json req) ;;
  body_prompt <- lift (get_field body "prompt") ;;
  match as_string body_prompt with
  | None => ret (NextResponse_json (Failure (lit "Prompt is required")) 400)
  | Some raw =>
      if length (trim raw) =? 0 then
        ret (NextResponse_json (Failure (lit "Prompt is required")) 400)
      else
        let prompt := trim raw in
        let wordCount := MockReply.wordCount prompt in
        let charCount := MockReply.charCount prompt in
        let replyContent := MockReply.replyContent prompt wordCount charCount in
        new_id <- generateId host ;;
        stamp <- now_ISO host ;;
        ret (NextResponse_json
               (Success {| id := new_id; role := assistant;
                           content := replyContent; createdAt := stamp |}) 200)
  end.

(** The [catch] block logs with [console.error] before it answers. *)
Definition POST (req : Request) : Total Response :=
  try_catch (handle req)
    (fun st =>
       (NextResponse_json (Failure (lit "Internal server error")) 500,
        {| tick := tick st; outbound := outbound st ++ [console_error] |})).

End Route.
End MockRouteSafeId.

(** ** The chat page *)

(** What a [throw] carries as far as the page looks at it: an [Error]
    with its message, or some other value. *)
Inductive Thrown : Type :=
| Error_with (message : jsstring)
| Not_an_Error.

(** A settled promise. *)
Inductive Outcome (A : Type) : Type :=
| Resolved (a : A)
| Rejected (e : Thrown).
Arguments Resolved {A} a.
Arguments Rejected {A} e.

(** The [Response] that [fetch] resolves to: [res.ok], [res.status] and
    what [res.json()] settles to. *)
Record FetchResponse : Type := {
  res_ok : bool;
  res_status : nat;
  res_json : Outcome JValue
}.

(** The browser the page runs in: its id and clock sources, what
    [fetch('/api/chat', ...)] settles to for a request body, and the
    message of the TypeError that reading a property of [null] throws. *)
Record Browser : Type := {
  browser_host : Host;
  fetch : JValue -> Outcome FetchResponse;
  null_read_message : string -> jsstring
}.

(** The value denoted by the text [JSON.stringify(v)]: an infinite number
    or NaN is written as [null], a zero loses its sign, everything else is
    written as it is. *)
Fixpoint JSON_stringify (v : JValue) : JValue :=
  match v with
  | JNum x =>
      match x with
      | SpecFloat.S754_infinity _ | SpecFloat.S754_nan => JNull
      | SpecFloat.S754_zero _ => JNum (SpecFloat.S754_zero false)
      | SpecFloat.S754_finite _ _ _ => JNum x
      end
  | JArr items => JArr (map JSON_stringify items)
  | JObj fields => JObj (map (fun '(k, x) => (k, JSON_stringify x)) fields)
  | JNull | JBool _ | JStr _ => v
  end.

(** An array element as [JSON.stringify] writes it: [undefined] becomes
    [null]. *)
Definition array_slot (v : JSValue) : JValue :=
  match v with
  | None => JNull
  | Some x => x
  end.

(** The React state of the page. *)
Record Page : Type := {
  messages : list JSValue;
  input : jsstring;
  isLoading : bool;
  error : option jsstring
}.

(** One run of [handleSubmit]: the state it leaves, whether its promise
    was fulfilled, the request bodies it sent, and the browser's state. *)
Record Run : Type := {
  page : Page;
  fulfilled : bool;
  sent : list JValue;
  clock : State
}.

(** The object literal [userMessage]. *)
Definition user_message (new_id trimmed stamp : jsstring) : JValue :=
  JObj [(lit "id", JStr new_id); (lit "role", JStr (lit "user"));
        (lit "content", JStr trimmed); (lit "createdAt", JStr stamp)].

(** The [catch] and [finally] blocks of both pages, after the optimistic
    update [before]: a resolved attempt appends the reply, a rejected one
    sets the error; loading ends either way. *)
Definition settle (before : Page) (attempt : Outcome JSValue) (otherwise : string) : Page :=
  match attempt with
  | Resolved reply =>
      {| messages := messages before ++ [reply]; input := input before;
         isLoading := false; error := error before |}
  | Rejected e =>
      {| messages := messages before; input := input before;
         isLoading := false;
         error := Some (match e with
                        | Error_with message => message
                        | Not_an_Error => lit otherwise
                        end) |}
  end.

(** The page of the mock revision. *)
Module MockPage.
Section Component.

Variable browser : Browser.

(** The [try] block: the request and the reading of the response. *)
Definition attempt (body : JValue) : Outcome JSValue :=
  match fetch browser (JSON_stringify body) with
  | Rejected e => Rejected e
  | Resolved res =>
      if negb (res_ok res) then
        let errorText :=
          match res_json res with
          | Rejected _ => lit "Request failed with status " ++ decimal (res_status res)
          | Resolved data =>
              match get_field data "error" with
              | Throw => lit "Request failed with status " ++ decimal (res_status res)
              | Ok v =>
                  match as_string v with
                  | Some text => if 0 <? length text then text else lit "Request failed"
                  | None => lit "Request failed"
                  end
              end
          end in
        Rejected (Error_with errorText)
      else
        match res_json res with
        | Rejected e => Rejected e
        | Resolved data =>
            match get_field data "message" with
            | Throw => Rejected (Error_with (null_read_message browser "message"))
            | Ok reply => Resolved reply
            end
        end
  end.

Definition handleSubmit (p : Page) (st : State) : Run :=
  let cleared :=
    {| messages := messages p; input := input p;
       isLoading := isLoading p; error := None |} in
  let trimmed := trim (input p) in
  if negb (Boolean_str trimmed) || isLoading p then
    {| page := cleared; fulfilled := true; sent := []; clock := st |}
  else
    match randomUUID (browser_host browser) st with
    | (Throw, st1) => {| page := cleared; fulfilled := false; sent := []; clock := st1 |}
    | (Ok new_id, st1) =>
        match now_ISO (browser_host browser) st1 with
        | (Throw, st2) => {| page := cleared; fulfilled := false; sent := []; clock := st2 |}
        | (Ok stamp, st2) =>
            let userMessage := user_message new_id trimmed stamp in
            let pending :=
              {| messages := messages cleared ++ [Some userMessage]; input := [];
                 isLoading := true; error := error cleared |} in
            let body :=
              JObj [(lit "messages", JArr (map array_slot (messages p)));
                    (lit "prompt", JStr trimmed)] in
            {| page := settle pending (attempt body) "Something went wrong";
               fulfilled := true;
               sent := [JSON_stringify body];
               clock := st2 |}
        end
    end.

End Component.
End MockPage.

(** The page of the provider revision. *)
Module ProviderPage.

Inductive Provider : Type := openai | gemini.

Definition provider_name (p : Provider) : jsstring :=
  match p with
  | openai => lit "openai"
  | gemini => lit "gemini"
  end.

Section Component.

Variable browser : Browser.

(** [data?.key] *)
Definition optional_field (data : JValue) (key : string) : JSValue :=
  match data with
  | JNull => None
  | _ =>
      match get_field data key with
      | Ok v => v
      | Throw => None
      end
  end.

(** The [try] block: the request and the reading of the response. *)
Definition attempt (body : JValue) : Outcome JSValue :=
  match fetch browser (JSON_stringify body) with
  | Rejected e => Rejected e
  | Resolved res =>
      let data :=
        match res_json res with
        | Resolved parsed => parsed
        | Rejected _ => JNull
        end in
      if negb (res_ok res) then
        Rejected (Error_with
          (match optional_field data "error" with
           | None | Some JNull =>
               lit "Request failed with status " ++ decimal (res_status res)
           | Some v => ToString (browser_host browser) v
           end))
      else if negb (truthy (optional_field data "message")) then
        Rejected (Error_with (lit "No message returned from the LLM API"))
      else
        Resolved (optional_field data "message")
  end.

Definition handleSubmit (provider : Provider) (p : Page) (st : State) : Run :=
  let cleared :=
    {| messages := messages p; input := input p;
       isLoading := isLoading p; error := None |} in
  let trimmed := trim (input p) in
  if negb (Boolean_str trimmed) || isLoading p then
    {| page := cleared; fulfilled := true; sent := []; clock := st |}
  else
    match generateId (browser_host browser) st with
    | (Throw, st1) => {| page := cleared; fulfilled := false; sent := []; clock := st1 |}
    | (Ok new_id, st1) =>
        match now_ISO (browser_host browser) st1 with
        | (Throw, st2) => {| page := cleared; fulfilled := false; sent := []; clock := st2 |}
        | (Ok stamp, st2) =>
            let userMessage := user_message new_id trimmed stamp in
            let pending :=
              {| messages := messages cleared ++ [Some userMessage]; input := [];
                 isLoading := true; error := error cleared |} in
            let body :=
              JObj [(lit "provider", JStr (provider_name provider));
                    (lit "messages",
                     JArr (map array_slot (messages p ++ [Some userMessage])))] in
            {| page := settle pending (attempt body)
                         "Something went wrong while contacting the chat API";
               fulfilled := true;
               sent := [JSON_stringify body];
               clock := st2 |}
        end
    end.

End Component.
End ProviderPage.

(** ** The page served by a route *)

Definition role_name (r : Role) : jsstring :=
  match r with
  | user => lit "user"
  | assistant => lit "assistant"
  | system => lit "system"
  end.

(** A [ChatMessage] as [NextResponse.json] writes it. *)
Definition encode_message (m : ChatMessage) : JValue :=
  JObj [(lit "id", JStr (id m)); (lit "role", JStr (role_name (role m)));
        (lit "content", JStr (content m)); (lit "createdAt", JStr (createdAt m))].

Definition encode_payload (p : Payload) : JValue :=
  match p with
  | Success m => JObj [(lit "message", encode_message m)]
  | Failure e => JObj [(lit "error", JStr e)]
  end.

(** What [fetch] settles to when the request reaches a route handler: the
    handler reads the body that was sent, and the page reads the status
    ([res.ok] for 200 to 299) and the payload it answered. *)
Definition served_by (route : Request -> Total Response) (server : State)
  (body : JValue) : Outcome FetchResponse :=
  let r := fst (route {| json := Ok body |} server) in
  Resolved {| res_ok := (200 <=? status r) && (status r <=? 299);
              res_status := status r;
              res_json := Resolved (encode_payload (payload r)) |}.

(** A stored message that is an object (not [undefined], [null] or a
    primitive). *)
Definition stored_object (v : JSValue) : bool :=
  match v with
  | Some (JObj _) => true
  | _ => false
  end.

(** ** Counting tokens, following the specification's words *)

(** "Whitespace-delimited token count": a token starts at every character
    that is not white space and is the first of the string or comes right
    after white space. *)
Fixpoint token_starts (after_space : bool) (s : jsstring) : nat :=
  match s with
  | [] => 0
  | c :: r =>
      (if after_space && negb (is_space c) then 1 else 0)
      + token_starts (is_space c) r
  end.

Definition whitespace_delimited_tokens (s : jsstring) : nat :=
  token_starts true s.

(** A string of white space only. *)
Definition blank (s : jsstring) : bool := forallb is_space s.

(** ** Sample hosts and requests *)

Definition quiet_host : Host := {|
  OPENAI_API_KEY := None;
  GOOGLE_API_KEY := None;
  crypto_randomUUID := Some (fun t => lit "uuid-" ++ decimal t);
  Math_random_toString16 := fun t => lit "0.8a" ++ decimal t;
  Date_now_toString16 := fun t => lit "18c" ++ decimal t;
  Date_toISOString := fun t => lit "2024-01-01T00:00:00." ++ decimal t ++ lit "Z";
  toUpperCase := fun s => s;
  Number_toString := fun _ => lit "0";
  chat_completions_create := fun _ _ => Throw;
  generateContent := fun _ _ => Throw
|}.

(** A host without [crypto.randomUUID]. *)
Definition legacy_host : Host := {|
  OPENAI_API_KEY := None;
  GOOGLE_API_KEY := None;
  crypto_randomUUID := None;
  Math_random_toString16 := fun t => lit "0.8a" ++ decimal t;
  Date_now_toString16 := fun t => lit "18c" ++ decimal t;
  Date_toISOString := fun t => lit "2024-01-01T00:00:00." ++ decimal t ++ lit "Z";
  toUpperCase := fun s => s;
  Number_toString := fun _ => lit "0";
  chat_completions_create := fun _ _ => Throw;
  generateContent := fun _ _ => Throw
|}.

Definition start : State := {| tick := 0; outbound := [] |}.
Definition later : State := {| tick := 7; outbound := [console_error] |}.

Definition field (key : string) (v : JValue) : jsstring * JValue := (lit key, v).

Definition mock_request (prompt : string) (messages : list JValue) : Request :=
  {| json := Ok (JObj [field "prompt" (JStr (lit prompt)); field "messages" (JArr messages)]) |}.

Definition chat_message (who text : string) : JValue :=
  JObj [field "id" (JStr (lit "m1")); field "role" (JStr (lit who));
        field "content" (JStr (lit text));
        field "createdAt" (JStr (lit "2024-01-01T00:00:00.000Z"))].

Definition provider_request (provider : string) (messages : list JValue) : Request :=
  {| json := Ok (JObj [field "provider" (JStr (lit provider));
                       field "messages" (JArr messages)]) |}.

(** A host with both credentials whose providers answer [reply] as the
    first completion. *)
Definition replying_host (reply : option jsstring) : Host := {|
  OPENAI_API_KEY := Some (lit "sk-test");
  GOOGLE_API_KEY := Some (lit "g-test");
  crypto_randomUUID := Some (fun t => lit "uuid-" ++ decimal t);
  Math_random_toString16 := fun t => lit "0.8a" ++ decimal t;
  Date_now_toString16 := fun t => lit "18c" ++ decimal t;
  Date_toISOString := fun t => lit "2024-01-01T00:00:00." ++ decimal t ++ lit "Z";
  toUpperCase := fun s => s;
  Number_toString := fun _ => lit "0";
  chat_completions_create := fun _ _ =>
    Ok {| choices := [{| ch_message := Some {| cm_content := reply |} |}] |};
  generateContent := fun _ _ => Ok {| response_text := Ok reply |}
|}.

(** ** Well-formed messages, following the interface [ChatMessage] *)

Definition not_null (m : JValue) : bool :=
  match m with
  | JNull => false
  | _ => true
  end.

Definition has_role_user (m : JValue) : bool :=
  match m with
  | JObj fields => strict_eq (own_property (lit "role") fields) "user"
  | _ => false
  end.

Definition is_string (v : JSValue) : bool :=
  match v with
  | Some (JStr _) => true
  | _ => false
  end.

Definition is_chat_message (m : JValue) : bool :=
  match m with
  | JObj fields =>
      is_string (own_property (lit "id") fields)
      && (let r := own_property (lit "role") fields in
          strict_eq r "user" || strict_eq r "assistant" || strict_eq r "system")
      && is_string (own_property (lit "content") fields)
      && is_string (own_property (lit "createdAt") fields)
  | _ => false
  end.

(** ** The answers of the routes *)

(** The content of the mock reply to a raw prompt. *)
Definition mock_content (raw : jsstring) : jsstring :=
  MockReply.replyContent (trim raw)
    (MockReply.wordCount (trim raw)) (MockReply.charCount (trim raw)).

Definition prompt_required : Response :=
  NextResponse_json (Failure (lit "Prompt is required")) 400.

Definition internal_error : Response :=
  NextResponse_json (Failure (lit "Internal server error")) 500.

(** A 200 answer carrying an assistant message with the given content. *)
Definition ok_with (r : Response) (text : jsstring) : Prop :=
  status r = 200 /\
  exists m, payload r = Success m /\ role m = assistant /\ content m = text.

(** The reply opens with the quoted prompt after [You said: ] and carries
    the two statistics on their lines. *)
Definition embeds_stats (text prompt : jsstring) (words chars : nat) : Prop :=
  starts_with (lit "You said: " ++ dquote ++ prompt ++ dquote) text = true /\
  includes text (lit "- Approximate word count: " ++ decimal words ++ newline) = true /\
  includes text
    (lit "- Character count (including spaces): " ++ decimal chars ++ newline) = true.

Definition invalid_provider : Response :=
  NextResponse_json
    (Failure (lit "Invalid provider, must be " ++ dquote ++ lit "openai" ++ dquote
              ++ lit " or " ++ dquote ++ lit "gemini" ++ dquote)) 400.

Definition messages_required : Response :=
  NextResponse_json (Failure (lit "Messages array is required and cannot be empty")) 400.

Definition user_required : Response :=
  NextResponse_json (Failure (lit "At least one user message is required")) 400.

(** The provider test of the first guard. *)
Definition provider_refused (provider : JSValue) : bool :=
  negb (truthy provider)
  || (negb (strict_eq provider "openai") && negb (strict_eq provider "gemini")).

(** ** What the provider blocks forward *)

Definition role_field (m : JValue) : JSValue :=
  match m with
  | JObj fields => own_property (lit "role") fields
  | _ => None
  end.

Definition content_field (m : JValue) : JSValue :=
  match m with
  | JObj fields => own_property (lit "content") fields
  | _ => None
  end.

(** An entry as the OpenAI block forwards it: role "user" stays, every
    other entry goes as "assistant". *)
Definition forwarded_openai (m : JValue) : OpenAIMessage :=
  {| oa_role := if has_role_user m then lit "user" else lit "assistant";
     oa_content := content_field m |}.

Definition text_of (v : JSValue) : jsstring :=
  match v with
  | Some (JStr s) => s
  | _ => []
  end.

(** A well-typed entry as the Gemini block forwards it: one text part
    [ROLE: content]. *)
Definition forwarded_gemini (host : Host) (m : JValue) : jsstring :=
  toUpperCase host (text_of (role_field m)) ++ lit ": " ++ text_of (content_field m).

Definition has_string_role (m : JValue) : bool := is_string (role_field m).

(** An outbound event that is a call to a provider. *)
Definition provider_call (o : Outbound) : bool :=
  match o with
  | OpenAI_create _ _ | Gemini_generateContent _ _ _ => true
  | console_error => false
  end.

(** ** Sample runs *)

Example split_ex1 : split_whitespace (lit " a  b ") = [[]; lit "a"; lit "b"; []].
Proof. reflexivity. Qed.
Example split_ex2 : split_whitespace [] = [[]].
Proof. reflexivity. Qed.
Example wc_ex : MockReply.wordCount (trim (lit "  hello   world ")) = 2.
Proof. vm_compute. reflexivity. Qed.
Example dec_ex : decimal 0 = lit "0" /\ decimal 11 = lit "11".
Proof. split; reflexivity. Qed.
Example mock_abc :
  status (fst (MockRouteSafeId.POST quiet_host (mock_request "abc" []) start)) = 200.
Proof. vm_compute. reflexivity. Qed.

(** ** Trimming and splitting *)

Lemma dropWhile_length {A : Type} (f : A -> bool) (l : list A) :
  length (dropWhile f l) <= length l.
Proof.
  induction l as [|x r IH]; simpl; [lia|].
  destruct (f x); simpl; lia.
Qed.

Lemma dropWhile_head {A : Type} (f : A -> bool) (l : list A) x r :
  dropWhile f l = x :: r -> f x = false.
Proof.
  induction l as [|y l IH]; simpl; [discriminate|].
  destruct (f y) eqn:E; [exact IH|].
  intros [= <- _]. exact E.
Qed.

Lemma dropWhile_snoc {A : Type} (f : A -> bool) (l : list A) x :
  f x = false -> dropWhile f (l ++ [x]) = dropWhile f l ++ [x].
Proof.
  intros Hx. induction l as [|y l IH]; simpl.
  - now rewrite Hx.
  - destruct (f y); [exact IH | reflexivity].
Qed.

Lemma dropWhile_all {A : Type} (f : A -> bool) (l : list A) :
  forallb f l = true -> dropWhile f l = [].
Proof.
  induction l as [|y l IH]; simpl; [reflexivity|].
  destruct (f y); simpl; [exact IH | discriminate].
Qed.

Lemma dropWhile_split {A : Type} (f : A -> bool) (l : list A) :
  exists dropped, l = dropped ++ dropWhile f l /\ forallb f dropped = true.
Proof.
  induction l as [|y l [d [Hd Hall]]]; simpl.
  - exists []. now split.
  - destruct (f y) eqn:E.
    + exists (y :: d). simpl. rewrite E, Hall. split; [now f_equal | reflexivity].
    + exists []. now split.
Qed.

Lemma trimEnd_split (s : jsstring) :
  exists tail, s = trimEnd s ++ tail /\ blank tail = true.
Proof.
  unfold trimEnd, blank.
  destruct (dropWhile_split is_space (rev s)) as [d [Hd Hall]].
  exists (rev d). split.
  - rewrite <- rev_app_distr, <- Hd. symmetry. apply rev_involutive.
  - rewrite forallb_forall in *. intros x Hx. apply Hall. now apply in_rev.
Qed.

Lemma trim_blank (s : jsstring) : blank s = true -> trim s = [].
Proof.
  intros H. unfold trim, trimStart, trimEnd.
  now rewrite (dropWhile_all _ _ H).
Qed.

Lemma trim_head (s : jsstring) :
  trim s <> [] -> exists c r, trim s = c :: r /\ is_space c = false.
Proof.
  unfold trim, trimEnd, trimStart.
  destruct (dropWhile is_space s) as [|c t] eqn:E; [now intros []|].
  intros _. pose proof (dropWhile_head _ _ _ _ E) as Hc.
  simpl. rewrite (dropWhile_snoc _ _ _ Hc), rev_app_distr. simpl.
  now exists c, (rev (dropWhile is_space (rev t))).
Qed.

Lemma trim_length (s : jsstring) : length (trim s) <= length s.
Proof.
  unfold trim, trimEnd, trimStart. rewrite length_rev.
  etransitivity; [apply dropWhile_length|].
  rewrite length_rev. apply dropWhile_length.
Qed.

Lemma token_starts_dropWhile (s : jsstring) :
  token_starts true (dropWhile is_space s) = token_starts true s.
Proof.
  induction s as [|c r IH]; simpl; [reflexivity|].
  destruct (is_space c) eqn:E; simpl; [exact IH | now rewrite E].
Qed.

Lemma token_starts_blank_tail (s tail : jsstring) b :
  blank tail = true -> token_starts b (s ++ tail) = token_starts b s.
Proof.
  intros Ht. revert b. induction s as [|c r IH]; intros b; simpl.
  - revert b. induction tail as [|x t IHt]; intros b; simpl; [reflexivity|].
    simpl in Ht. apply andb_prop in Ht as [Hx Ht].
    rewrite Hx, (IHt Ht). now rewrite andb_false_r.
  - now rewrite IH.
Qed.

Lemma tokens_trim (s : jsstring) :
  whitespace_delimited_tokens (trim s) = whitespace_delimited_tokens s.
Proof.
  unfold whitespace_delimited_tokens, trim.
  destruct (trimEnd_split (trimStart s)) as [tail [Hs Ht]].
  rewrite <- (token_starts_blank_tail (trimEnd (trimStart s)) tail true Ht), <- Hs.
  apply token_starts_dropWhile.
Qed.

Lemma Boolean_str_rev (s : jsstring) : Boolean_str (rev s) = Boolean_str s.
Proof.
  destruct s as [|c r]; [reflexivity|]. simpl.
  destruct (rev r); reflexivity.
Qed.

(** The pieces that survive [filter(Boolean)] are the tokens: the pending
    piece counts when it is not empty, and every later token start opens a
    new one. *)
Lemma split_scan_tokens (piece s : jsstring) :
  length (filter Boolean_str (split_scan piece s))
  = (if Boolean_str piece then 1 else 0)
    + token_starts (negb (Boolean_str piece)) s.
Proof.
  funelim (split_scan piece s); simp split_scan; simpl.
  - rewrite Boolean_str_rev. destruct (Boolean_str piece); reflexivity.
  - rewrite Heq. simpl. rewrite Boolean_str_rev, andb_false_r. simpl.
    destruct (Boolean_str piece); simpl; rewrite H; simpl;
      now rewrite token_starts_dropWhile.
  - rewrite Heq. simpl. rewrite H. simpl.
    destruct piece; simpl; lia.
Qed.

Lemma wordCount_tokens (s : jsstring) :
  MockReply.wordCount s = whitespace_delimited_tokens s.
Proof.
  unfold MockReply.wordCount, split_whitespace.
  now rewrite split_scan_tokens.
Qed.

Lemma wordCount_trim_positive (s : jsstring) :
  trim s <> [] -> 1 <= MockReply.wordCount (trim s).
Proof.
  intros H. rewrite wordCount_tokens.
  destruct (trim_head s H) as [c [r [-> Hc]]].
  unfold whitespace_delimited_tokens. simpl. rewrite Hc. simpl. lia.
Qed.

(** ** The mock routes, case by case *)

Ltac unfold_handler :=
  unfold MockRoute.POST, MockRouteSafeId.POST, ProviderRoute.POST,
    MockRoute.handle, MockRouteSafeId.handle, ProviderRoute.handle,
    ProviderRoute.answer_openai, ProviderRoute.answer_gemini,
    ProviderRoute.error_json, ProviderRoute.create, ProviderRoute.generate,
    try_catch, bind, lift, ret, throw, generateId, randomUUID, now_ISO, ask, emit.

Lemma trim_nonempty_test (raw : jsstring) :
  trim raw <> [] -> (length (trim raw) =? 0) = false.
Proof. destruct (trim raw); [now intros [] | reflexivity]. Qed.

Lemma safe_mock_accepts host st body raw :
  get_field body "prompt" = Ok (Some (JStr raw)) -> trim raw <> [] ->
  ok_with (fst (MockRouteSafeId.POST host {| json := Ok body |} st)) (mock_content raw).
Proof.
  intros Hp Hne. unfold_handler. simpl. rewrite Hp. simpl.
  rewrite (trim_nonempty_test raw Hne).
  destruct (crypto_randomUUID host); simpl;
    (split; [reflexivity | eexists; repeat split]).
Qed.

Lemma uuid_mock_accepts host st body raw uuid :
  crypto_randomUUID host = Some uuid ->
  get_field body "prompt" = Ok (Some (JStr raw)) -> trim raw <> [] ->
  ok_with (fst (MockRoute.POST host {| json := Ok body |} st)) (mock_content raw).
Proof.
  intros Hu Hp Hne. unfold_handler. simpl. rewrite Hp. simpl.
  rewrite (trim_nonempty_test raw Hne), Hu. simpl.
  split; [reflexivity | eexists; repeat split].
Qed.

Lemma mock_rejects_blank host st body raw :
  get_field body "prompt" = Ok (Some (JStr raw)) -> trim raw = [] ->
  MockRoute.POST host {| json := Ok body |} st = (prompt_required, st) /\
  MockRouteSafeId.POST host {| json := Ok body |} st = (prompt_required, st).
Proof.
  intros Hp Hb. unfold_handler. simpl. rewrite Hp. simpl. rewrite Hb. simpl.
  now split.
Qed.

Lemma mock_rejects_non_string host st body v :
  get_field body "prompt" = Ok v -> as_string v = None ->
  MockRoute.POST host {| json := Ok body |} st = (prompt_required, st) /\
  MockRouteSafeId.POST host {| json := Ok body |} st = (prompt_required, st).
Proof.
  intros Hp Hv. unfold_handler. simpl. rewrite Hp. simpl. rewrite Hv.
  now split.
Qed.

(** Whatever the request, a mock route that answers with a message was
    given a prompt string that is not blank, and the message is the reply
    to that prompt. *)
Lemma mock_message_inv host st req r :
  r = fst (MockRoute.POST host req st) \/ r = fst (MockRouteSafeId.POST host req st) ->
  (status r = 200 \/ exists m, payload r = Success m) ->
  exists body raw,
    json req = Ok body /\ get_field body "prompt" = Ok (Some (JStr raw)) /\
    trim raw <> [] /\ ok_with r (mock_content raw).
Proof.
  destruct req as [[body|]].
  2:{ intros [-> | ->] [H | [m H]]; vm_compute in H; discriminate. }
  destruct (get_field body "prompt") as [v|] eqn:Hp.
  2:{ intros [-> | ->] [H | [m H]]; revert H; unfold_handler; simpl;
      rewrite Hp; simpl; discriminate. }
  destruct (as_string v) as [raw|] eqn:Hv.
  2:{ destruct (mock_rejects_non_string host st body v Hp Hv) as [E1 E2].
      intros [-> | ->] [H | [m H]]; revert H; rewrite ?E1, ?E2; discriminate. }
  assert (v = Some (JStr raw)) as ->.
  { destruct v as [[]|]; simpl in Hv; try discriminate. now injection Hv as ->. }
  destruct (list_eq_dec N.eq_dec (trim raw) []) as [Hb | Hne].
  { destruct (mock_rejects_blank host st body raw Hp Hb) as [E1 E2].
    intros [-> | ->] [H | [m H]]; revert H; rewrite ?E1, ?E2; discriminate. }
  intros Hr Hok. exists body, raw. repeat split; trivial.
  - destruct Hok as [H | [m H]]; [exact H|].
    destruct Hr as [-> | ->]; revert H; unfold_handler; simpl; rewrite Hp; simpl;
      rewrite (trim_nonempty_test raw Hne);
      destruct (crypto_randomUUID host); simpl; try discriminate; reflexivity.
  - destruct Hr as [-> | ->].
    + destruct (crypto_randomUUID host) as [uuid|] eqn:Hu.
      * apply (uuid_mock_accepts host st body raw uuid Hu Hp Hne).
      * exfalso. destruct Hok as [H | [m H]]; revert H; unfold_handler; simpl;
          rewrite Hp; simpl; rewrite (trim_nonempty_test raw Hne), Hu; simpl;
          discriminate.
    + apply (safe_mock_accepts host st body raw Hp Hne).
Qed.

(** ** What a reply embeds *)

Lemma starts_with_refl_app (p rest : jsstring) : starts_with p (p ++ rest) = true.
Proof.
  induction p as [|c p IH]; simpl; [reflexivity|].
  now rewrite N.eqb_refl.
Qed.

Lemma starts_with_opening (a b c d rest : jsstring) :
  starts_with (a ++ b ++ c ++ d) (a ++ b ++ c ++ d ++ rest) = true.
Proof.
  replace (a ++ b ++ c ++ d ++ rest) with ((a ++ b ++ c ++ d) ++ rest)
    by (now rewrite <- !app_assoc).
  apply starts_with_refl_app.
Qed.

Lemma includes_middle (before needle after : jsstring) :
  includes (before ++ needle ++ after) needle = true.
Proof.
  induction before as [|c b IH]; simpl.
  - pose proof (starts_with_refl_app needle after) as S.
    destruct (needle ++ after); simpl; now rewrite S.
  - rewrite IH. apply orb_true_r.
Qed.

Lemma includes_at (text before needle after : jsstring) :
  text = before ++ needle ++ after -> includes text needle = true.
Proof. intros ->. apply includes_middle. Qed.

Lemma replyContent_embeds (prompt : jsstring) (words chars : nat) :
  embeds_stats (MockReply.replyContent prompt words chars) prompt words chars.
Proof.
  unfold embeds_stats, MockReply.replyContent. repeat split.
  - apply starts_with_opening.
  - eapply includes_at
      with (before := lit "You said: " ++ dquote ++ prompt ++ dquote ++ newline ++
                      newline ++ lit "Here is a simple analysis of your message:" ++ newline).
    rewrite <- !app_assoc. reflexivity.
  - eapply includes_at
      with (before := lit "You said: " ++ dquote ++ prompt ++ dquote ++ newline ++
                      newline ++ lit "Here is a simple analysis of your message:" ++ newline ++
                      lit "- Approximate word count: " ++ decimal words ++ newline).
    rewrite <- !app_assoc. reflexivity.
Qed.

(** ** Properties of the mock routes *)

(** C1. For a well-formed mock request (a prompt string that is not blank)
    the 200 response's [message.content] opens with the quoted trimmed
    prompt after [You said: ] and embeds the prompt's word count and
    character count.  The route with the safe id always answers 200; the
    route calling [crypto.randomUUID()] does so on a host that has it.  For
    the prompt "hello world" the counts are 2 and 11; for
    POST {prompt:"abc", messages:[]} the answer is 200, the content
    contains [You said: "abc"], word count 1 and character count 3. *)
Theorem mock_reply_embeds_prompt_and_counts :
  (forall host st body raw r,
      get_field body "prompt" = Ok (Some (JStr raw)) -> trim raw <> [] ->
      r = fst (MockRouteSafeId.POST host {| json := Ok body |} st)
      \/ (r = fst (MockRoute.POST host {| json := Ok body |} st)
          /\ (status r = 200 \/ crypto_randomUUID host <> None)) ->
      status r = 200 /\
      exists m, payload r = Success m /\
        embeds_stats (content m) (trim raw)
          (MockReply.wordCount (trim raw)) (length (trim raw)))
  /\ (forall host st body r,
      get_field body "prompt" = Ok (Some (JStr (lit "hello world"))) ->
      r = fst (MockRouteSafeId.POST host {| json := Ok body |} st)
      \/ (r = fst (MockRoute.POST host {| json := Ok body |} st)
          /\ crypto_randomUUID host <> None) ->
      status r = 200 /\
      exists m, payload r = Success m /\
        embeds_stats (content m) (lit "hello world") 2 11)
  /\ (forall host st r,
      r = fst (MockRouteSafeId.POST host (mock_request "abc" []) st)
      \/ (r = fst (MockRoute.POST host (mock_request "abc" []) st)
          /\ crypto_randomUUID host <> None) ->
      status r = 200 /\
      exists m, payload r = Success m /\
        includes (content m) (lit "You said: " ++ dquote ++ lit "abc" ++ dquote) = true /\
        embeds_stats (content m) (lit "abc") 1 3).
Proof.
  assert (general : forall host st body raw r,
      get_field body "prompt" = Ok (Some (JStr raw)) -> trim raw <> [] ->
      r = fst (MockRouteSafeId.POST host {| json := Ok body |} st)
      \/ (r = fst (MockRoute.POST host {| json := Ok body |} st)
          /\ (status r = 200 \/ crypto_randomUUID host <> None)) ->
      ok_with r (mock_content raw)).
  { intros host st body raw r Hp Hne [-> | [-> Hok]].
    - now apply safe_mock_accepts.
    - destruct (crypto_randomUUID host) as [uuid|] eqn:Hu.
      + now apply (uuid_mock_accepts host st body raw uuid).
      + destruct Hok as [H | H]; [|now elim H].
        destruct (mock_message_inv host st {| json := Ok body |} _
                    (or_introl eq_refl) (or_introl H))
          as [body' [raw' [Hb [Hp' [_ Hr]]]]].
        simpl in Hb. injection Hb as <-. rewrite Hp in Hp'.
        now injection Hp' as <-. }
  split; [|split].
  - intros host st body raw r Hp Hne Hr.
    destruct (general host st body raw r Hp Hne Hr) as [Hs [m [Hm [_ Hc]]]].
    split; [exact Hs|]. exists m. split; [exact Hm|].
    rewrite Hc. apply replyContent_embeds.
  - intros host st body r Hp Hr.
    assert (Hne : trim (lit "hello world") <> []) by (vm_compute; discriminate).
    destruct (general host st body _ r Hp Hne) as [Hs [m [Hm [_ Hc]]]].
    { destruct Hr as [-> | [-> H]]; [now left | right; split; [reflexivity | now right]]. }
    split; [exact Hs|]. exists m. split; [exact Hm|].
    rewrite Hc. apply (replyContent_embeds (lit "hello world") 2 11).
  - intros host st r Hr.
    assert (Hne : trim (lit "abc") <> []) by (vm_compute; discriminate).
    assert (Hp : get_field (JObj [field "prompt" (JStr (lit "abc")); field "messages" (JArr [])])
                   "prompt" = Ok (Some (JStr (lit "abc")))) by reflexivity.
    destruct (general host st _ _ r Hp Hne) as [Hs [m [Hm [_ Hc]]]].
    { destruct Hr as [-> | [-> H]]; [now left | right; split; [reflexivity | now right]]. }
    split; [exact Hs|]. exists m. split; [exact Hm|].
    rewrite Hc. split; [vm_compute; reflexivity|].
    apply (replyContent_embeds (lit "abc") 1 3).
Qed.

Lemma mock_reply_embeds_prompt_and_counts_witness :
  let r := fst (MockRouteSafeId.POST quiet_host (mock_request " hello  world " []) start) in
  status r = 200 /\
  exists m, payload r = Success m /\
    embeds_stats (content m) (trim (lit " hello  world "))
      (MockReply.wordCount (trim (lit " hello  world ")))
      (length (trim (lit " hello  world "))).
Proof.
  apply (proj1 mock_reply_embeds_prompt_and_counts quiet_host start
           (JObj [field "prompt" (JStr (lit " hello  world ")); field "messages" (JArr [])])
           (lit " hello  world ")).
  - reflexivity.
  - vm_compute. discriminate.
  - left. reflexivity.
Defined.

(** C6, as the code has it.  For every prompt the mock responder accepts,
    the embedded character count is the length of the prompt after
    trimming (interior white space included, leading and trailing white
    space not), and the embedded word count is the number of
    whitespace-delimited tokens of the submitted prompt. *)
Theorem mock_counts_of_trimmed_prompt host st body raw r :
  get_field body "prompt" = Ok (Some (JStr raw)) -> trim raw <> [] ->
  r = fst (MockRouteSafeId.POST host {| json := Ok body |} st)
  \/ (r = fst (MockRoute.POST host {| json := Ok body |} st)
      /\ crypto_randomUUID host <> None) ->
  status r = 200 /\
  (exists m, payload r = Success m /\
     content m = MockReply.replyContent (trim raw)
                   (whitespace_delimited_tokens raw) (length (trim raw))) /\
  length (trim raw) <= length raw.
Proof.
  intros Hp Hne Hr.
  assert (Hok : ok_with r (mock_content raw)).
  { destruct Hr as [-> | [-> Hu]].
    - now apply safe_mock_accepts.
    - destruct (crypto_randomUUID host) as [uuid|] eqn:E; [|now elim Hu].
      now apply (uuid_mock_accepts host st body raw uuid). }
  destruct Hok as [Hs [m [Hm [_ Hc]]]].
  split; [exact Hs|]. split; [|apply trim_length].
  exists m. split; [exact Hm|].
  rewrite Hc. unfold mock_content, MockReply.charCount.
  now rewrite wordCount_tokens, tokens_trim.
Qed.

Lemma mock_counts_of_trimmed_prompt_witness :
  let r := fst (MockRouteSafeId.POST quiet_host (mock_request "  one two   three " []) start) in
  status r = 200 /\
  (exists m, payload r = Success m /\
     content m = MockReply.replyContent (trim (lit "  one two   three "))
                   (whitespace_delimited_tokens (lit "  one two   three "))
                   (length (trim (lit "  one two   three ")))) /\
  length (trim (lit "  one two   three ")) <= length (lit "  one two   three ").
Proof.
  apply (mock_counts_of_trimmed_prompt quiet_host start
           (JObj [field "prompt" (JStr (lit "  one two   three ")); field "messages" (JArr [])])
           (lit "  one two   three ")).
  - reflexivity.
  - vm_compute. discriminate.
  - left. reflexivity.
Defined.

(** C6 as stated fails: for the accepted prompt " a " (raw length 3) the
    reply embeds character count 1, the length of the trimmed prompt. *)
Lemma mock_char_count_is_not_raw_length :
  let raw := lit " a " in
  let r := fst (MockRouteSafeId.POST quiet_host (mock_request " a " []) start) in
  length raw = 3 /\ whitespace_delimited_tokens raw = 1 /\
  status r = 200 /\
  exists m, payload r = Success m /\
    content m = MockReply.replyContent (lit "a") 1 1 /\
    content m <> MockReply.replyContent (lit "a") 1 (length raw) /\
    includes (content m) (lit "- Character count (including spaces): 3") = false.
Proof.
  vm_compute. repeat split. eexists. repeat split; discriminate.
Qed.

(** C7. The content of a mock reply is a function of the prompt alone: two
    invocations with the same prompt string, on any hosts, in any states,
    with any other fields in the body (the messages array included), and
    on either revision of the route, that return a message return the same
    content (and role); the id and the timestamp come from the host. *)
Theorem mock_content_deterministic host1 host2 st1 st2 body1 body2 raw r1 r2 m1 m2 :
  get_field body1 "prompt" = Ok (Some (JStr raw)) ->
  get_field body2 "prompt" = Ok (Some (JStr raw)) ->
  r1 = fst (MockRoute.POST host1 {| json := Ok body1 |} st1)
  \/ r1 = fst (MockRouteSafeId.POST host1 {| json := Ok body1 |} st1) ->
  r2 = fst (MockRoute.POST host2 {| json := Ok body2 |} st2)
  \/ r2 = fst (MockRouteSafeId.POST host2 {| json := Ok body2 |} st2) ->
  payload r1 = Success m1 -> payload r2 = Success m2 ->
  content m1 = content m2 /\ role m1 = role m2 /\ content m1 = mock_content raw.
Proof.
  intros Hp1 Hp2 Hr1 Hr2 Hm1 Hm2.
  destruct (mock_message_inv host1 st1 _ r1 Hr1 (or_intror (ex_intro _ m1 Hm1)))
    as [b1 [raw1 [Hb1 [Hq1 [_ [_ [n1 [Hn1 [Hrole1 Hc1]]]]]]]]].
  destruct (mock_message_inv host2 st2 _ r2 Hr2 (or_intror (ex_intro _ m2 Hm2)))
    as [b2 [raw2 [Hb2 [Hq2 [_ [_ [n2 [Hn2 [Hrole2 Hc2]]]]]]]]].
  simpl in Hb1, Hb2. injection Hb1 as <-. injection Hb2 as <-.
  rewrite Hp1 in Hq1. rewrite Hp2 in Hq2.
  injection Hq1 as <-. injection Hq2 as <-.
  rewrite Hm1 in Hn1. rewrite Hm2 in Hn2.
  injection Hn1 as <-. injection Hn2 as <-.
  rewrite Hc1, Hc2, Hrole1, Hrole2. repeat split.
Qed.

Lemma mock_content_deterministic_witness :
  let m1 := {| id := lit "uuid-0"; role := assistant;
               content := mock_content (lit "abc");
               createdAt := lit "2024-01-01T00:00:00.1Z" |} in
  let m2 := {| id := lit "18c8-8a7"; role := assistant;
               content := mock_content (lit "abc");
               createdAt := lit "2024-01-01T00:00:00.9Z" |} in
  id m1 <> id m2 /\
  (content m1 = content m2 /\ role m1 = role m2 /\ content m1 = mock_content (lit "abc")).
Proof.
  split; [vm_compute; discriminate|].
  apply (mock_content_deterministic quiet_host legacy_host start later
           (JObj [field "prompt" (JStr (lit "abc")); field "messages" (JArr [])])
           (JObj [field "messages" (JArr [JNull]); field "prompt" (JStr (lit "abc"))])
           (lit "abc")
           (fst (MockRoute.POST quiet_host (mock_request "abc" []) start))
           (fst (MockRouteSafeId.POST legacy_host
                   {| json := Ok (JObj [field "messages" (JArr [JNull]);
                                        field "prompt" (JStr (lit "abc"))]) |} later))).
  - reflexivity.
  - reflexivity.
  - left. reflexivity.
  - right. reflexivity.
  - vm_compute. reflexivity.
  - vm_compute. reflexivity.
Defined.

(** C10. In both revisions of the mock route a prompt made of white space
    only is answered with status 400 and the error [Prompt is required],
    and so is a body without a prompt, leaving the state as it was;
    consequently every 200 answer of a mock route is the reply to a prompt
    whose embedded word count is at least 1. *)
Theorem mock_blank_prompt_rejected :
  (forall host st body raw body',
      get_field body "prompt" = Ok (Some (JStr raw)) -> blank raw = true ->
      get_field body' "prompt" = Ok None ->
      let rejected := (NextResponse_json (Failure (lit "Prompt is required")) 400, st) in
      MockRoute.POST host {| json := Ok body |} st = rejected /\
      MockRouteSafeId.POST host {| json := Ok body |} st = rejected /\
      MockRoute.POST host {| json := Ok body' |} st = rejected /\
      MockRouteSafeId.POST host {| json := Ok body' |} st = rejected)
  /\ (forall host st req r,
      r = fst (MockRoute.POST host req st) \/ r = fst (MockRouteSafeId.POST host req st) ->
      status r = 200 ->
      exists body raw m,
        json req = Ok body /\ get_field body "prompt" = Ok (Some (JStr raw)) /\
        payload r = Success m /\
        content m = MockReply.replyContent (trim raw)
                      (MockReply.wordCount (trim raw)) (length (trim raw)) /\
        1 <= MockReply.wordCount (trim raw)).
Proof.
  split.
  - intros host st body raw body' Hp Hb Hp'. simpl.
    destruct (mock_rejects_blank host st body raw Hp (trim_blank raw Hb)) as [E1 E2].
    destruct (mock_rejects_non_string host st body' None Hp' eq_refl) as [E3 E4].
    repeat split; assumption.
  - intros host st req r Hr Hs.
    destruct (mock_message_inv host st req r Hr (or_introl Hs))
      as [body [raw [Hb [Hp [Hne [_ [m [Hm [_ Hc]]]]]]]]].
    exists body, raw, m. repeat split; trivial.
    now apply wordCount_trim_positive.
Qed.

Lemma mock_blank_prompt_rejected_witness :
  let blank_body := JObj [field "prompt" (JStr (lit "   ")); field "messages" (JArr [])] in
  let no_prompt := JObj [field "messages" (JArr [])] in
  let rejected := (NextResponse_json (Failure (lit "Prompt is required")) 400, start) in
  MockRoute.POST quiet_host {| json := Ok blank_body |} start = rejected /\
  MockRouteSafeId.POST quiet_host {| json := Ok blank_body |} start = rejected /\
  MockRoute.POST quiet_host {| json := Ok no_prompt |} start = rejected /\
  MockRouteSafeId.POST quiet_host {| json := Ok no_prompt |} start = rejected.
Proof.
  apply (proj1 mock_blank_prompt_rejected quiet_host start
           (JObj [field "prompt" (JStr (lit "   ")); field "messages" (JArr [])])
           (lit "   ") (JObj [field "messages" (JArr [])])).
  - reflexivity.
  - reflexivity.
  - reflexivity.
Defined.

(** ** The provider route, case by case *)

Lemma is_user_not_null (m : JValue) :
  not_null m = true -> ProviderRoute.is_user m = Ok (has_role_user m).
Proof. destruct m; simpl; try discriminate; reflexivity. Qed.

Lemma js_find_users (items : list JValue) :
  forallb not_null items = true ->
  js_find ProviderRoute.is_user items = Ok (find has_role_user items).
Proof.
  induction items as [|m items IH]; simpl; [reflexivity|].
  intros H. apply andb_prop in H as [Hm Hall].
  rewrite (is_user_not_null m Hm).
  destruct (has_role_user m); [reflexivity | now apply IH].
Qed.

Lemma forallb_rev_true {A : Type} (f : A -> bool) (l : list A) :
  forallb f l = true -> forallb f (rev l) = true.
Proof.
  rewrite !forallb_forall. intros H x Hx. apply H. now apply in_rev.
Qed.

Lemma find_none_of_existsb {A : Type} (f : A -> bool) (l : list A) :
  existsb f l = false -> find f (rev l) = None.
Proof.
  intros H. destruct (find f (rev l)) as [x|] eqn:E; [|reflexivity].
  apply find_some in E as [Hin Hx].
  assert (existsb f l = true) by (apply existsb_exists; exists x; split; [now apply in_rev|exact Hx]).
  congruence.
Qed.

Lemma find_some_of_existsb {A : Type} (f : A -> bool) (l : list A) :
  existsb f l = true -> exists x, find f (rev l) = Some x /\ f x = true.
Proof.
  intros H. apply existsb_exists in H as [y [Hin Hy]].
  destruct (find f (rev l)) as [x|] eqn:E.
  - exists x. split; [reflexivity|]. now apply find_some in E.
  - exfalso. apply in_rev in Hin.
    pose proof (find_none _ _ E y Hin). congruence.
Qed.

Lemma user_is_truthy (m : JValue) : has_role_user m = true -> truthy (Some m) = true.
Proof. destruct m; simpl; try discriminate; reflexivity. Qed.

Lemma js_map_openai (items : list JValue) :
  forallb not_null items = true ->
  exists mapped, js_map ProviderRoute.to_openai items = Ok mapped.
Proof.
  induction items as [|m items IH]; simpl; [now exists []|].
  intros H. apply andb_prop in H as [Hm Hall].
  destruct (IH Hall) as [mapped ->].
  destruct m; try discriminate; simpl; eexists; reflexivity.
Qed.

Lemma chat_message_not_null (items : list JValue) :
  forallb is_chat_message items = true -> forallb not_null items = true.
Proof.
  rewrite !forallb_forall. intros H m Hm. specialize (H m Hm).
  destruct m; simpl in *; try discriminate; reflexivity.
Qed.

Lemma js_map_gemini host (items : list JValue) :
  forallb is_chat_message items = true ->
  exists mapped, js_map (ProviderRoute.to_gemini_part host) items = Ok mapped.
Proof.
  induction items as [|m items IH]; simpl; [now exists []|].
  intros H. apply andb_prop in H as [Hm Hall].
  destruct (IH Hall) as [mapped ->].
  destruct m as [| | | | |fields]; try discriminate.
  unfold ProviderRoute.to_gemini_part, get_field, call_toUpperCase.
  unfold is_chat_message in Hm.
  destruct (own_property (lit "role") fields) as [[]|];
    simpl in Hm; rewrite ?andb_false_r in Hm; try discriminate.
  eexists; reflexivity.
Qed.

Ltac enter_provider :=
  unfold ProviderRoute.POST, ProviderRoute.handle, try_catch, bind, lift;
  cbv beta iota; simpl json; cbv beta iota.

Lemma provider_guard host st body provider :
  get_field body "provider" = Ok provider -> provider_refused provider = true ->
  ProviderRoute.POST host {| json := Ok body |} st = (invalid_provider, st).
Proof.
  intros Hp Hr.
  enter_provider.
  rewrite Hp. unfold provider_refused in Hr. cbv beta iota. rewrite Hr. reflexivity.
Qed.

Lemma messages_guard host st body provider v :
  get_field body "provider" = Ok provider -> provider_refused provider = false ->
  get_field body "messages" = Ok v ->
  (forall items, v = Some (JArr items) -> items = []) ->
  ProviderRoute.POST host {| json := Ok body |} st = (messages_required, st).
Proof.
  intros Hp Hr Hm Hv.
  enter_provider.
  rewrite Hp. unfold provider_refused in Hr. cbv beta iota. rewrite Hr, Hm.
  destruct v as [[| | | |items|]|]; try reflexivity.
  rewrite (Hv items eq_refl). reflexivity.
Qed.

Lemma user_guard host st body provider items :
  get_field body "provider" = Ok provider -> provider_refused provider = false ->
  get_field body "messages" = Ok (Some (JArr items)) -> items <> [] ->
  forallb not_null items = true -> existsb has_role_user items = false ->
  ProviderRoute.POST host {| json := Ok body |} st = (user_required, st).
Proof.
  intros Hp Hr Hm Hne Hnn Hnone.
  enter_provider.
  rewrite Hp. unfold provider_refused in Hr. cbv beta iota. rewrite Hr, Hm.
  cbv beta iota. unfold Array_isArray. cbv beta iota.
  destruct items as [|m items']; [now elim Hne|].
  change (length (m :: items') =? 0) with false. cbv beta iota.
  rewrite (js_find_users _ (forallb_rev_true _ _ Hnn)).
  rewrite (find_none_of_existsb _ _ Hnone). reflexivity.
Qed.

(** A request that passes the three guards is handed to the block of its
    provider. *)
Lemma dispatch host st body provider items :
  get_field body "provider" = Ok provider -> provider_refused provider = false ->
  get_field body "messages" = Ok (Some (JArr items)) ->
  forallb not_null items = true -> existsb has_role_user items = true ->
  ProviderRoute.POST host {| json := Ok body |} st
  = try_catch
      (if strict_eq provider "openai" then ProviderRoute.answer_openai host items
       else ProviderRoute.answer_gemini host items)
      (fun st' => (internal_error, st')) st.
Proof.
  intros Hp Hr Hm Hnn Hsome.
  enter_provider.
  rewrite Hp. pose proof Hr as Hr'. unfold provider_refused in Hr'.
  cbv beta iota. rewrite Hr', Hm.
  cbv beta iota. unfold Array_isArray. cbv beta iota.
  destruct items as [|m items']; [discriminate|].
  change (length (m :: items') =? 0) with false. cbv beta iota.
  rewrite (js_find_users _ (forallb_rev_true _ _ Hnn)).
  destruct (find_some_of_existsb _ _ Hsome) as [u [-> Hu]].
  rewrite (user_is_truthy u Hu). simpl negb. cbv beta iota.
  destruct (strict_eq provider "openai") eqn:Eo; [reflexivity|].
  destruct (strict_eq provider "gemini") eqn:Eg; [reflexivity|].
  rewrite orb_false_iff in Hr'. destruct Hr' as [_ Hr']. discriminate.
Qed.

Lemma readable_body_has_fields (body : JValue) (key : string) (v : JSValue) :
  get_field body key = Ok v -> forall key', exists v', get_field body key' = Ok v'.
Proof.
  destruct body; simpl; try discriminate; intros _ key'; eexists; reflexivity.
Qed.

(** ** Properties of the request validation *)

Lemma bad_messages_answer host st body v :
  get_field body "messages" = Ok v ->
  (forall items, v = Some (JArr items) ->
     items = [] \/
     (forallb not_null items = true /\ existsb has_role_user items = false)) ->
  exists msg,
    ProviderRoute.POST host {| json := Ok body |} st
    = (NextResponse_json (Failure msg) 400, st) /\ msg <> [].
Proof.
  intros Hm Hv.
  destruct (readable_body_has_fields body _ _ Hm "provider") as [provider Hp].
  destruct (provider_refused provider) eqn:Hr.
  { eexists. split; [apply (provider_guard host st body provider Hp Hr)|].
    vm_compute. discriminate. }
  assert (Hmsg : lit "Messages array is required and cannot be empty" <> [])
    by (vm_compute; discriminate).
  destruct v as [[| | | |items|]|];
    try (eexists; split; [|exact Hmsg];
         apply (messages_guard host st body provider _ Hp Hr Hm); discriminate).
  destruct (Hv items eq_refl) as [-> | [Hnn Hnone]].
  - eexists; split; [|exact Hmsg].
    apply (messages_guard host st body provider _ Hp Hr Hm). now intros ? [= <-].
  - destruct items as [|m items'].
    + eexists; split; [|exact Hmsg].
      apply (messages_guard host st body provider _ Hp Hr Hm). now intros ? [= <-].
    + eexists. split.
      * apply (user_guard host st body provider (m :: items') Hp Hr Hm); trivial.
        discriminate.
      * vm_compute. discriminate.
Qed.

(** C2, as the code has it.  In the provider route, for every body that
    can be read (any JSON value but [null]) whose messages field is not a
    non-empty array, or whose messages array has no [null] entry and no
    entry with role "user", the answer is status 400 with a non-empty
    error string, and nothing else happens.  (The mock routes never look
    at messages.) *)
Theorem provider_rejects_bad_messages host st body v :
  get_field body "messages" = Ok v ->
  (forall items, v = Some (JArr items) ->
     items = [] \/
     (forallb not_null items = true /\ existsb has_role_user items = false)) ->
  exists msg,
    ProviderRoute.POST host {| json := Ok body |} st
    = (NextResponse_json (Failure msg) 400, st) /\ msg <> [].
Proof. exact (bad_messages_answer host st body v). Qed.

Lemma provider_rejects_bad_messages_witness :
  exists msg,
    ProviderRoute.POST quiet_host
      (provider_request "openai" [chat_message "assistant" "hello"; JBool true]) start
    = (NextResponse_json (Failure msg) 400, start) /\ msg <> [].
Proof.
  apply (provider_rejects_bad_messages quiet_host start
           (JObj [field "provider" (JStr (lit "openai"));
                  field "messages" (JArr [chat_message "assistant" "hello"; JBool true])])
           (Some (JArr [chat_message "assistant" "hello"; JBool true]))).
  - reflexivity.
  - intros items [= <-]. right. split; reflexivity.
Defined.

(** C2 as stated fails: the mock routes answer 200 to an empty messages
    array, and the provider route answers 500 when the array holds a
    [null] entry or the body is [null]. *)
Lemma messages_not_always_validated :
  status (fst (MockRouteSafeId.POST quiet_host (mock_request "abc" []) start)) = 200 /\
  status (fst (MockRoute.POST quiet_host (mock_request "abc" []) start)) = 200 /\
  status (fst (ProviderRoute.POST quiet_host (provider_request "openai" [JNull]) start)) = 500 /\
  status (fst (ProviderRoute.POST quiet_host {| json := Ok JNull |} start)) = 500.
Proof. vm_compute. repeat split. Qed.

(** C3, as the code has it.  When the body is not parseable JSON,
    [req.json()] rejects inside the [try] block and every revision of the
    handler answers from its [catch] block: status 500 with the error
    [Internal server error] (the route with the safe id also logs it). *)
Theorem unparseable_body_internal_error host st :
  let failed := NextResponse_json (Failure (lit "Internal server error")) 500 in
  ProviderRoute.POST host {| json := Throw |} st = (failed, st) /\
  MockRoute.POST host {| json := Throw |} st = (failed, st) /\
  MockRouteSafeId.POST host {| json := Throw |} st
  = (failed, {| tick := tick st; outbound := outbound st ++ [console_error] |}).
Proof. repeat split. Qed.

(** C3 as stated fails: an unparseable body gets 500, not 400. *)
Lemma unparseable_body_is_not_400 :
  status (fst (ProviderRoute.POST quiet_host {| json := Throw |} start)) = 500 /\
  status (fst (MockRoute.POST quiet_host {| json := Throw |} start)) = 500 /\
  status (fst (MockRouteSafeId.POST quiet_host {| json := Throw |} start)) = 500 /\
  status (fst (ProviderRoute.POST quiet_host {| json := Throw |} start)) <> 400.
Proof. vm_compute. repeat split. discriminate. Qed.

(** C4. A request whose body lacks a required field (reading it gives
    [undefined]): provider or messages in the provider route, prompt in
    the mock routes, is answered with status 400 and a non-empty error
    string. *)
Theorem missing_field_rejected host st body :
  (get_field body "provider" = Ok None \/ get_field body "messages" = Ok None ->
   exists msg,
     ProviderRoute.POST host {| json := Ok body |} st
     = (NextResponse_json (Failure msg) 400, st) /\ msg <> [])
  /\ (get_field body "prompt" = Ok None ->
      exists msg,
        MockRoute.POST host {| json := Ok body |} st
        = (NextResponse_json (Failure msg) 400, st) /\
        MockRouteSafeId.POST host {| json := Ok body |} st
        = (NextResponse_json (Failure msg) 400, st) /\ msg <> []).
Proof.
  split.
  - intros [Hp | Hm].
    + eexists. split; [apply (provider_guard host st body None Hp eq_refl)|].
      vm_compute. discriminate.
    + apply (bad_messages_answer host st body None Hm). discriminate.
  - intros Hp.
    destruct (mock_rejects_non_string host st body None Hp eq_refl) as [E1 E2].
    eexists. repeat split; [exact E1 | exact E2 |]. vm_compute. discriminate.
Qed.

Lemma missing_field_rejected_witness :
  (exists msg,
     ProviderRoute.POST quiet_host
       {| json := Ok (JObj [field "provider" (JStr (lit "gemini"))]) |} start
     = (NextResponse_json (Failure msg) 400, start) /\ msg <> [])
  /\ (exists msg,
     ProviderRoute.POST quiet_host
       {| json := Ok (JObj [field "messages" (JArr [chat_message "user" "hi"])]) |} start
     = (NextResponse_json (Failure msg) 400, start) /\ msg <> [])
  /\ (exists msg,
        MockRoute.POST quiet_host {| json := Ok (JObj [field "messages" (JArr [])]) |} start
        = (NextResponse_json (Failure msg) 400, start) /\
        MockRouteSafeId.POST quiet_host {| json := Ok (JObj [field "messages" (JArr [])]) |} start
        = (NextResponse_json (Failure msg) 400, start) /\ msg <> []).
Proof.
  split; [|split].
  - apply (proj1 (missing_field_rejected quiet_host start
                    (JObj [field "provider" (JStr (lit "gemini"))]))).
    right. reflexivity.
  - apply (proj1 (missing_field_rejected quiet_host start
                    (JObj [field "messages" (JArr [chat_message "user" "hi"])]))).
    left. reflexivity.
  - apply (proj2 (missing_field_rejected quiet_host start
                    (JObj [field "messages" (JArr [])]))).
    reflexivity.
Defined.

(** ** Properties of the provider blocks *)

(** C5. When the credential of the selected provider is absent from the
    environment, a provider-route request that passes validation (a
    non-empty messages array without [null] entries and with a user
    entry) is answered with status 500 and the error naming the missing
    key, whatever the messages contain, and the state is left as it was:
    no outbound call is attempted. *)
Theorem missing_credential_gives_500 host st body items :
  get_field body "messages" = Ok (Some (JArr items)) ->
  forallb not_null items = true -> existsb has_role_user items = true ->
  (get_field body "provider" = Ok (Some (JStr (lit "openai"))) ->
   OPENAI_API_KEY host = None ->
   ProviderRoute.POST host {| json := Ok body |} st
   = (NextResponse_json
        (Failure (lit "OPENAI_API_KEY is not configured on the server")) 500, st))
  /\ (get_field body "provider" = Ok (Some (JStr (lit "gemini"))) ->
      GOOGLE_API_KEY host = None ->
      ProviderRoute.POST host {| json := Ok body |} st
      = (NextResponse_json
           (Failure (lit "GOOGLE_API_KEY is not configured on the server")) 500, st)).
Proof.
  intros Hm Hnn Hu. split; intros Hp Hkey.
  - rewrite (dispatch host st body _ items Hp eq_refl Hm Hnn Hu).
    change (strict_eq (Some (JStr (lit "openai"))) "openai") with true. cbv iota.
    unfold ProviderRoute.answer_openai, ProviderRoute.getOpenAIClient.
    rewrite Hkey. reflexivity.
  - rewrite (dispatch host st body _ items Hp eq_refl Hm Hnn Hu).
    change (strict_eq (Some (JStr (lit "gemini"))) "openai") with false. cbv iota.
    unfold ProviderRoute.answer_gemini, ProviderRoute.getGeminiClient.
    rewrite Hkey. reflexivity.
Qed.

Lemma missing_credential_gives_500_witness :
  let messages := [chat_message "user" "first"; chat_message "assistant" "second";
                   JObj [field "role" (JStr (lit "user")); field "content" (JArr [])]] in
  ProviderRoute.POST quiet_host (provider_request "openai" messages) later
  = (NextResponse_json
       (Failure (lit "OPENAI_API_KEY is not configured on the server")) 500, later)
  /\ ProviderRoute.POST quiet_host (provider_request "gemini" messages) later
     = (NextResponse_json
          (Failure (lit "GOOGLE_API_KEY is not configured on the server")) 500, later).
Proof.
  split.
  - apply (proj1 (missing_credential_gives_500 quiet_host later
             (JObj [field "provider" (JStr (lit "openai"));
                    field "messages"
                      (JArr [chat_message "user" "first"; chat_message "assistant" "second";
                             JObj [field "role" (JStr (lit "user"));
                                   field "content" (JArr [])]])])
             _ eq_refl eq_refl eq_refl)); reflexivity.
  - apply (proj2 (missing_credential_gives_500 quiet_host later
             (JObj [field "provider" (JStr (lit "gemini"));
                    field "messages"
                      (JArr [chat_message "user" "first"; chat_message "assistant" "second";
                             JObj [field "role" (JStr (lit "user"));
                                   field "content" (JArr [])]])])
             _ eq_refl eq_refl eq_refl)); reflexivity.
Defined.

Lemma nonempty_is_truthy (key : jsstring) : key <> [] -> Boolean_str key = true.
Proof. destruct key; [now intros [] | reflexivity]. Qed.

(** C8, as the code has it.  For a well-typed request with the credential
    configured, the adapter answers 200 and substitutes the fallback
    [I could not generate a response.] exactly when the first completion
    is missing or nullish ([??]); a completion that is a string, the empty
    string included, is returned as it is. *)
Theorem fallback_replaces_only_missing_content host st body items key :
  get_field body "messages" = Ok (Some (JArr items)) ->
  forallb is_chat_message items = true -> existsb has_role_user items = true ->
  key <> [] ->
  (forall completion,
      get_field body "provider" = Ok (Some (JStr (lit "openai"))) ->
      OPENAI_API_KEY host = Some key ->
      (forall params, chat_completions_create host (tick st) params = Ok completion) ->
      let r := fst (ProviderRoute.POST host {| json := Ok body |} st) in
      status r = 200 /\
      exists m, payload r = Success m /\
        (ProviderRoute.first_content completion = None ->
         content m = lit "I could not generate a response.") /\
        (forall text, ProviderRoute.first_content completion = Some text ->
                      content m = text))
  /\ (forall reply,
      get_field body "provider" = Ok (Some (JStr (lit "gemini"))) ->
      GOOGLE_API_KEY host = Some key ->
      (forall contents,
          generateContent host (tick st) contents = Ok {| response_text := Ok reply |}) ->
      let r := fst (ProviderRoute.POST host {| json := Ok body |} st) in
      status r = 200 /\
      exists m, payload r = Success m /\
        (reply = None -> content m = lit "I could not generate a response.") /\
        (forall text, reply = Some text -> content m = text)).
Proof.
  intros Hm Htyped Hu Hkey.
  pose proof (chat_message_not_null items Htyped) as Hnn.
  pose proof (nonempty_is_truthy key Hkey) as Htruthy.
  split.
  - intros completion Hp Hk Hcreate.
    rewrite (dispatch host st body _ items Hp eq_refl Hm Hnn Hu).
    change (strict_eq (Some (JStr (lit "openai"))) "openai") with true. cbv iota.
    destruct (js_map_openai items Hnn) as [mapped Hmap].
    unfold ProviderRoute.answer_openai, ProviderRoute.getOpenAIClient.
    rewrite Hk, Htruthy. unfold_handler. unfold bind, ret. simpl.
    rewrite Hmap. simpl. rewrite Hcreate.
    destruct (crypto_randomUUID host); simpl;
      (split; [reflexivity|]; eexists; split; [reflexivity|]; simpl;
       split; [now intros -> | now intros text ->]).
  - intros reply Hp Hk Hgen.
    rewrite (dispatch host st body _ items Hp eq_refl Hm Hnn Hu).
    change (strict_eq (Some (JStr (lit "gemini"))) "openai") with false. cbv iota.
    destruct (js_map_gemini host items Htyped) as [mapped Hmap].
    unfold ProviderRoute.answer_gemini, ProviderRoute.getGeminiClient.
    rewrite Hk, Htruthy. unfold_handler. unfold bind, ret. simpl.
    rewrite Hmap. simpl. rewrite Hgen.
    destruct (crypto_randomUUID host); simpl;
      (split; [reflexivity|]; eexists; split; [reflexivity|]; simpl;
       split; [now intros -> | now intros text ->]).
Qed.

Lemma fallback_replaces_only_missing_content_witness :
  let r := fst (ProviderRoute.POST (replying_host None)
                  (provider_request "openai" [chat_message "user" "hi"]) start) in
  let completion := {| choices := [{| ch_message := Some {| cm_content := None |} |}] |} in
  status r = 200 /\
  exists m, payload r = Success m /\
    (ProviderRoute.first_content completion = None ->
     content m = lit "I could not generate a response.") /\
    (forall text, ProviderRoute.first_content completion = Some text -> content m = text).
Proof.
  apply (proj1 (fallback_replaces_only_missing_content (replying_host None) start
                  (JObj [field "provider" (JStr (lit "openai"));
                         field "messages" (JArr [chat_message "user" "hi"])])
                  [chat_message "user" "hi"] (lit "sk-test")
                  eq_refl eq_refl eq_refl
                  ltac:(vm_compute; discriminate))).
  - reflexivity.
  - reflexivity.
  - intros params. reflexivity.
Defined.

(** C8 as stated fails: when the provider's first completion is the empty
    string, the returned content is the empty string, not the fallback. *)
Lemma empty_completion_is_not_replaced :
  let host := replying_host (Some []) in
  let messages := [chat_message "user" "hi"] in
  let r1 := fst (ProviderRoute.POST host (provider_request "openai" messages) start) in
  let r2 := fst (ProviderRoute.POST host (provider_request "gemini" messages) start) in
  (status r1 = 200 /\ exists m, payload r1 = Success m /\ content m = [] /\
     content m <> lit "I could not generate a response.") /\
  (status r2 = 200 /\ exists m, payload r2 = Success m /\ content m = [] /\
     content m <> lit "I could not generate a response.").
Proof.
  vm_compute. repeat split; eexists; repeat split; discriminate.
Qed.

(** ** The role of the answer *)

Ltac case_split_handler :=
  repeat match goal with
    | |- context [match ?x with _ => _ end] =>
        lazymatch x with
        | context [match _ with _ => _ end] => fail
        | (_, _) => fail
        | _ => destruct x eqn:?; cbv beta iota
        end
    end.

Lemma provider_message_role host st req :
  status (fst (ProviderRoute.POST host req st)) = 200 ->
  exists m, payload (fst (ProviderRoute.POST host req st)) = Success m /\
            role m = assistant.
Proof.
  unfold_handler. unfold bind, ret, ask. cbv beta iota.
  case_split_handler; simpl; intros H; try discriminate H;
    eexists; split; reflexivity.
Qed.

(** C9. Every answer with status 200, from the provider route and from
    both revisions of the mock route, carries a message whose role is
    "assistant". *)
Theorem ok_response_is_from_assistant host st req r :
  r = fst (ProviderRoute.POST host req st)
  \/ r = fst (MockRoute.POST host req st)
  \/ r = fst (MockRouteSafeId.POST host req st) ->
  status r = 200 ->
  exists m, payload r = Success m /\ role m = assistant.
Proof.
  intros [-> | Hmock] Hs.
  - now apply provider_message_role.
  - destruct (mock_message_inv host st req r Hmock (or_introl Hs))
      as [_ [_ [_ [_ [_ [_ [m [Hm [Hrole _]]]]]]]]].
    now exists m.
Qed.

Lemma ok_response_is_from_assistant_witness :
  let r := fst (ProviderRoute.POST (replying_host (Some (lit "Hello!")))
                  (provider_request "gemini" [chat_message "user" "hi"]) start) in
  exists m, payload r = Success m /\ role m = assistant.
Proof.
  apply (ok_response_is_from_assistant (replying_host (Some (lit "Hello!"))) start
           (provider_request "gemini" [chat_message "user" "hi"])).
  - left. reflexivity.
  - reflexivity.
Defined.

(** ** Further properties of the provider route *)

Lemma jsstring_eqb_eq (a b : jsstring) : jsstring_eqb a b = true -> a = b.
Proof.
  unfold jsstring_eqb. destruct (list_eq_dec N.eq_dec a b); [trivial | discriminate].
Qed.

Lemma strict_eq_true (v : JSValue) (s : string) :
  strict_eq v s = true -> v = Some (JStr (lit s)).
Proof.
  destruct v as [[]|]; simpl; try discriminate.
  intros H. now rewrite (jsstring_eqb_eq _ _ H).
Qed.

(** A provider field that is anything but one of the two strings is
    refused by the first guard, before the messages are looked at: the
    answer is the 400 [Invalid provider, ...] whatever else the body
    holds, and the state is untouched. *)
Theorem unknown_provider_rejected_first host st body provider :
  get_field body "provider" = Ok provider ->
  provider <> Some (JStr (lit "openai")) ->
  provider <> Some (JStr (lit "gemini")) ->
  ProviderRoute.POST host {| json := Ok body |} st
  = (NextResponse_json
       (Failure (lit "Invalid provider, must be " ++ dquote ++ lit "openai" ++ dquote
                 ++ lit " or " ++ dquote ++ lit "gemini" ++ dquote)) 400, st).
Proof.
  intros Hp Ho Hg. apply (provider_guard host st body provider Hp).
  unfold provider_refused.
  destruct (strict_eq provider "openai") eqn:Eo;
    [now apply strict_eq_true in Eo|].
  destruct (strict_eq provider "gemini") eqn:Eg;
    [now apply strict_eq_true in Eg|].
  apply orb_true_r.
Qed.

Lemma unknown_provider_rejected_first_witness :
  ProviderRoute.POST (replying_host None)
    {| json := Ok (JObj [field "provider" (JStr (lit "OpenAI"));
                         field "messages" (JArr [chat_message "user" "hi"])]) |} later
  = (NextResponse_json
       (Failure (lit "Invalid provider, must be " ++ dquote ++ lit "openai" ++ dquote
                 ++ lit " or " ++ dquote ++ lit "gemini" ++ dquote)) 400, later).
Proof.
  apply (unknown_provider_rejected_first (replying_host None) later
           (JObj [field "provider" (JStr (lit "OpenAI"));
                  field "messages" (JArr [chat_message "user" "hi"])])
           (Some (JStr (lit "OpenAI")))).
  - reflexivity.
  - vm_compute. discriminate.
  - vm_compute. discriminate.
Defined.

Lemma js_find_app {A : Type} (f : A -> Result bool) (l1 l2 : list A) :
  js_find f l1 = Ok None -> js_find f (l1 ++ l2) = js_find f l2.
Proof.
  induction l1 as [|x l1 IH]; simpl; [reflexivity|].
  destruct (f x) as [[]|]; try discriminate. exact IH.
Qed.

(** A [null] entry with no user entry after it makes the search for the
    latest user message throw: for a valid provider the answer is the
    500 of the [catch] block, not a 400, and no call is made. *)
Theorem null_entry_internal_error host st body provider before after :
  get_field body "provider" = Ok provider -> provider_refused provider = false ->
  get_field body "messages" = Ok (Some (JArr (before ++ JNull :: after))) ->
  forallb not_null after = true -> existsb has_role_user after = false ->
  ProviderRoute.POST host {| json := Ok body |} st
  = (NextResponse_json (Failure (lit "Internal server error")) 500, st).
Proof.
  intros Hp Hr Hm Hnn Hnone. enter_provider.
  rewrite Hp. unfold provider_refused in Hr. cbv beta iota. rewrite Hr, Hm.
  cbv beta iota. unfold Array_isArray. cbv beta iota.
  assert (Hlen : (length (before ++ JNull :: after) =? 0) = false).
  { rewrite length_app. simpl. apply Nat.eqb_neq. lia. }
  rewrite Hlen. cbv beta iota.
  rewrite rev_app_distr. simpl rev. rewrite <- !app_assoc.
  rewrite js_find_app.
  - reflexivity.
  - rewrite (js_find_users _ (forallb_rev_true _ _ Hnn)).
    now rewrite (find_none_of_existsb _ _ Hnone).
Qed.

Lemma null_entry_internal_error_witness :
  ProviderRoute.POST (replying_host None)
    (provider_request "openai"
       [chat_message "user" "hi"; JNull; chat_message "assistant" "yes"]) start
  = (NextResponse_json (Failure (lit "Internal server error")) 500, start).
Proof.
  apply (null_entry_internal_error (replying_host None) start
           (JObj [field "provider" (JStr (lit "openai"));
                  field "messages"
                    (JArr ([chat_message "user" "hi"] ++
                           JNull :: [chat_message "assistant" "yes"]))])
           (Some (JStr (lit "openai")))
           [chat_message "user" "hi"] [chat_message "assistant" "yes"]);
    reflexivity.
Defined.

(** Whatever the request, the provider route makes at most one provider
    call; an answer with status 400 leaves the state as it was (no call,
    no id, no clock read), and an answer with status 200 made exactly one
    call. *)
Theorem at_most_one_provider_call host st req :
  let out := ProviderRoute.POST host req st in
  (outbound (snd out) = outbound st \/
   exists call, provider_call call = true /\ outbound (snd out) = outbound st ++ [call]) /\
  (status (fst out) = 400 -> snd out = st) /\
  (status (fst out) = 200 ->
   exists call, provider_call call = true /\ outbound (snd out) = outbound st ++ [call]).
Proof.
  unfold_handler. unfold bind, ret, ask. cbv beta iota.
  case_split_handler; simpl;
    (split; [|split];
     [ first [ left; reflexivity
             | right; eexists; split; [|reflexivity]; reflexivity ]
     | intros H; first [ discriminate H | reflexivity ]
     | intros H; first [ discriminate H
                       | eexists; split; [|reflexivity]; reflexivity ] ]).
Qed.

Lemma at_most_one_provider_call_witness :
  let out := ProviderRoute.POST (replying_host (Some (lit "Hello!")))
               (provider_request "openai" [chat_message "user" "hi"]) later in
  exists call, provider_call call = true /\
               outbound (snd out) = outbound later ++ [call].
Proof.
  apply (proj2 (proj2 (at_most_one_provider_call (replying_host (Some (lit "Hello!")))
                         later
                         (provider_request "openai" [chat_message "user" "hi"])))).
  reflexivity.
Defined.

Lemma js_map_openai_forwarded (items : list JValue) :
  forallb not_null items = true ->
  js_map ProviderRoute.to_openai items = Ok (map forwarded_openai items).
Proof.
  induction items as [|m items IH]; simpl; [reflexivity|].
  intros H. apply andb_prop in H as [Hm Hall]. rewrite (IH Hall).
  destruct m; try discriminate; reflexivity.
Qed.

Lemma js_map_gemini_forwarded host (items : list JValue) :
  forallb is_chat_message items = true ->
  js_map (ProviderRoute.to_gemini_part host) items
  = Ok (map (forwarded_gemini host) items).
Proof.
  induction items as [|m items IH]; simpl; [reflexivity|].
  intros H. apply andb_prop in H as [Hm Hall]. rewrite (IH Hall).
  destruct m as [| | | | |fields]; try discriminate.
  unfold ProviderRoute.to_gemini_part, forwarded_gemini, get_field, call_toUpperCase,
    role_field, content_field.
  unfold is_chat_message in Hm.
  destruct (own_property (lit "role") fields) as [[]|];
    simpl in Hm; rewrite ?andb_false_r in Hm; try discriminate.
  destruct (own_property (lit "content") fields) as [[]|];
    simpl in Hm; rewrite ?andb_false_r, ?andb_false_l in Hm; try discriminate.
  reflexivity.
Qed.

(** With the key configured, a validated request is forwarded to OpenAI
    in one call, whatever the service then answers: the model is
    gpt-4o-mini, temperature 0.7, at most 512 tokens, and the messages are
    the system prompt followed by every entry in order, an entry with role
    "user" as user and every other entry (assistant, system, no role) as
    assistant. *)
Theorem openai_call_payload host st body items key :
  get_field body "provider" = Ok (Some (JStr (lit "openai"))) ->
  get_field body "messages" = Ok (Some (JArr items)) ->
  forallb not_null items = true -> existsb has_role_user items = true ->
  OPENAI_API_KEY host = Some key -> key <> [] ->
  outbound (snd (ProviderRoute.POST host {| json := Ok body |} st))
  = outbound st ++
    [OpenAI_create key
       {| oa_model := lit "gpt-4o-mini";
          oa_messages :=
            {| oa_role := lit "system";
               oa_content := Some (JStr (lit "You are mini, a helpful AI assistant. Be concise, clear, and friendly.")) |}
            :: map forwarded_openai items;
          oa_temperature := QArith_base.Qmake 7 10;
          oa_max_tokens := 512 |}].
Proof.
  intros Hp Hm Hnn Hu Hk Hkey.
  rewrite (dispatch host st body _ items Hp eq_refl Hm Hnn Hu).
  change (strict_eq (Some (JStr (lit "openai"))) "openai") with true. cbv iota.
  unfold ProviderRoute.answer_openai, ProviderRoute.getOpenAIClient.
  rewrite Hk, (nonempty_is_truthy key Hkey). unfold_handler. unfold bind, ret. simpl.
  rewrite (js_map_openai_forwarded items Hnn). simpl.
  destruct (chat_completions_create host (tick st) _); simpl; [|reflexivity].
  destruct (crypto_randomUUID host); reflexivity.
Qed.

Lemma openai_call_payload_witness :
  let items := [chat_message "system" "be brief"; chat_message "user" "hi";
                JObj [field "content" (JStr (lit "no role"))]] in
  outbound (snd (ProviderRoute.POST (replying_host None)
                   (provider_request "openai" items) start))
  = outbound start ++
    [OpenAI_create (lit "sk-test")
       {| oa_model := lit "gpt-4o-mini";
          oa_messages :=
            {| oa_role := lit "system";
               oa_content := Some (JStr (lit "You are mini, a helpful AI assistant. Be concise, clear, and friendly.")) |}
            :: map forwarded_openai items;
          oa_temperature := QArith_base.Qmake 7 10;
          oa_max_tokens := 512 |}].
Proof.
  apply (openai_call_payload (replying_host None) start
           (JObj [field "provider" (JStr (lit "openai"));
                  field "messages"
                    (JArr [chat_message "system" "be brief"; chat_message "user" "hi";
                           JObj [field "content" (JStr (lit "no role"))]])])
           _ (lit "sk-test") eq_refl eq_refl eq_refl eq_refl eq_refl).
  vm_compute. discriminate.
Defined.

(** With the key configured, a validated request of well-typed messages
    is forwarded to Gemini in one call, whatever the service then answers:
    model gemini-1.5-flash, a single content of role "user" whose parts are
    the system prompt followed by one part [ROLE: content] per message, in
    order. *)
Theorem gemini_call_payload host st body items key :
  get_field body "provider" = Ok (Some (JStr (lit "gemini"))) ->
  get_field body "messages" = Ok (Some (JArr items)) ->
  forallb is_chat_message items = true -> existsb has_role_user items = true ->
  GOOGLE_API_KEY host = Some key -> key <> [] ->
  outbound (snd (ProviderRoute.POST host {| json := Ok body |} st))
  = outbound st ++
    [Gemini_generateContent key (lit "gemini-1.5-flash")
       [{| gc_role := lit "user";
           gc_parts :=
             lit "You are mini, a helpful AI assistant. Be concise, clear, and friendly."
             :: map (forwarded_gemini host) items |}]].
Proof.
  intros Hp Hm Htyped Hu Hk Hkey.
  pose proof (chat_message_not_null items Htyped) as Hnn.
  rewrite (dispatch host st body _ items Hp eq_refl Hm Hnn Hu).
  change (strict_eq (Some (JStr (lit "gemini"))) "openai") with false. cbv iota.
  unfold ProviderRoute.answer_gemini, ProviderRoute.getGeminiClient.
  rewrite Hk, (nonempty_is_truthy key Hkey). unfold_handler. unfold bind, ret. simpl.
  rewrite (js_map_gemini_forwarded host items Htyped). simpl.
  destruct (generateContent host (tick st) _) as [[[text|]]|]; simpl; try reflexivity.
  destruct (crypto_randomUUID host); reflexivity.
Qed.

Lemma gemini_call_payload_witness :
  let host := replying_host (Some (lit "Hello!")) in
  let items := [chat_message "user" "hi"; chat_message "assistant" "yes?"] in
  outbound (snd (ProviderRoute.POST host (provider_request "gemini" items) start))
  = outbound start ++
    [Gemini_generateContent (lit "g-test") (lit "gemini-1.5-flash")
       [{| gc_role := lit "user";
           gc_parts :=
             lit "You are mini, a helpful AI assistant. Be concise, clear, and friendly."
             :: map (forwarded_gemini host) items |}]].
Proof.
  apply (gemini_call_payload (replying_host (Some (lit "Hello!"))) start
           (JObj [field "provider" (JStr (lit "gemini"));
                  field "messages"
                    (JArr [chat_message "user" "hi"; chat_message "assistant" "yes?"])])
           _ (lit "g-test") eq_refl eq_refl eq_refl eq_refl eq_refl).
  vm_compute. discriminate.
Defined.

(** A failure of the provider (the call rejects, or Gemini's [text()]
    throws) is answered from the [catch] block: status 500 with the fixed
    text [Internal server error], nothing of the failure in it. *)
Theorem provider_failure_is_500 host st body items key :
  get_field body "messages" = Ok (Some (JArr items)) ->
  forallb is_chat_message items = true -> existsb has_role_user items = true ->
  key <> [] ->
  (get_field body "provider" = Ok (Some (JStr (lit "openai"))) ->
   OPENAI_API_KEY host = Some key ->
   (forall params, chat_completions_create host (tick st) params = Throw) ->
   fst (ProviderRoute.POST host {| json := Ok body |} st)
   = NextResponse_json (Failure (lit "Internal server error")) 500)
  /\ (get_field body "provider" = Ok (Some (JStr (lit "gemini"))) ->
      GOOGLE_API_KEY host = Some key ->
      (forall contents,
          generateContent host (tick st) contents = Throw \/
          generateContent host (tick st) contents = Ok {| response_text := Throw |}) ->
      fst (ProviderRoute.POST host {| json := Ok body |} st)
      = NextResponse_json (Failure (lit "Internal server error")) 500).
Proof.
  intros Hm Htyped Hu Hkey.
  pose proof (chat_message_not_null items Htyped) as Hnn.
  pose proof (nonempty_is_truthy key Hkey) as Htruthy.
  split.
  - intros Hp Hk Hfail.
    rewrite (dispatch host st body _ items Hp eq_refl Hm Hnn Hu).
    change (strict_eq (Some (JStr (lit "openai"))) "openai") with true. cbv iota.
    unfold ProviderRoute.answer_openai, ProviderRoute.getOpenAIClient.
    rewrite Hk, Htruthy. unfold_handler. unfold bind, ret. simpl.
    rewrite (js_map_openai_forwarded items Hnn). simpl.
    now rewrite Hfail.
  - intros Hp Hk Hfail.
    rewrite (dispatch host st body _ items Hp eq_refl Hm Hnn Hu).
    change (strict_eq (Some (JStr (lit "gemini"))) "openai") with false. cbv iota.
    unfold ProviderRoute.answer_gemini, ProviderRoute.getGeminiClient.
    rewrite Hk, Htruthy. unfold_handler. unfold bind, ret. simpl.
    rewrite (js_map_gemini_forwarded host items Htyped). simpl.
    match goal with
    | |- context [generateContent host (tick st) ?c] =>
        destruct (Hfail c) as [-> | ->]
    end; reflexivity.
Qed.

Lemma provider_failure_is_500_witness :
  let host := {| OPENAI_API_KEY := Some (lit "sk-test");
                 GOOGLE_API_KEY := Some (lit "g-test");
                 crypto_randomUUID := None;
                 Math_random_toString16 := fun _ => [];
                 Date_now_toString16 := fun _ => [];
                 Date_toISOString := fun _ => [];
                 toUpperCase := fun s => s;
                 Number_toString := fun _ => [];
                 chat_completions_create := fun _ _ => Throw;
                 generateContent := fun _ _ => Ok {| response_text := Throw |} |} in
  fst (ProviderRoute.POST host (provider_request "openai" [chat_message "user" "hi"]) start)
  = NextResponse_json (Failure (lit "Internal server error")) 500
  /\ fst (ProviderRoute.POST host (provider_request "gemini" [chat_message "user" "hi"]) start)
     = NextResponse_json (Failure (lit "Internal server error")) 500.
Proof.
  split.
  - apply (proj1 (provider_failure_is_500 _ start
             (JObj [field "provider" (JStr (lit "openai"));
                    field "messages" (JArr [chat_message "user" "hi"])])
             [chat_message "user" "hi"] (lit "sk-test")
             eq_refl eq_refl eq_refl ltac:(vm_compute; discriminate)));
      [reflexivity | reflexivity | intros; reflexivity].
  - apply (proj2 (provider_failure_is_500 _ start
             (JObj [field "provider" (JStr (lit "gemini"));
                    field "messages" (JArr [chat_message "user" "hi"])])
             [chat_message "user" "hi"] (lit "g-test")
             eq_refl eq_refl eq_refl ltac:(vm_compute; discriminate)));
      [reflexivity | reflexivity | intros; right; reflexivity].
Defined.

Lemma js_map_gemini_throws host (items : list JValue) :
  forallb not_null items = true ->
  existsb (fun m => negb (has_string_role m)) items = true ->
  js_map (ProviderRoute.to_gemini_part host) items = Throw.
Proof.
  induction items as [|m items IH]; simpl; [discriminate|].
  intros Hnn Hex. apply andb_prop in Hnn as [Hm Hall].
  destruct (has_string_role m) eqn:Hrole; simpl in Hex.
  - rewrite (IH Hall Hex).
    destruct (ProviderRoute.to_gemini_part host m); reflexivity.
  - assert (ProviderRoute.to_gemini_part host m = Throw) as ->; [|reflexivity].
    unfold ProviderRoute.to_gemini_part, has_string_role, role_field in *.
    destruct m as [| | | | |fields]; try discriminate; try reflexivity.
    simpl. destruct (own_property (lit "role") fields) as [[]|];
      try discriminate; reflexivity.
Qed.

(** The Gemini block upper-cases every role, so an entry whose role is
    not a string (missing, null, a number) makes it throw before the call:
    the answer is the 500 of the [catch] block and no call is made, where
    the OpenAI block would forward the entry as an assistant message. *)
Theorem gemini_needs_string_roles host st body items key :
  get_field body "provider" = Ok (Some (JStr (lit "gemini"))) ->
  get_field body "messages" = Ok (Some (JArr items)) ->
  forallb not_null items = true -> existsb has_role_user items = true ->
  existsb (fun m => negb (has_string_role m)) items = true ->
  GOOGLE_API_KEY host = Some key -> key <> [] ->
  ProviderRoute.POST host {| json := Ok body |} st
  = (NextResponse_json (Failure (lit "Internal server error")) 500, st).
Proof.
  intros Hp Hm Hnn Hu Hbad Hk Hkey.
  rewrite (dispatch host st body _ items Hp eq_refl Hm Hnn Hu).
  change (strict_eq (Some (JStr (lit "gemini"))) "openai") with false. cbv iota.
  unfold ProviderRoute.answer_gemini, ProviderRoute.getGeminiClient.
  rewrite Hk, (nonempty_is_truthy key Hkey). unfold_handler. unfold bind, ret. simpl.
  now rewrite (js_map_gemini_throws host items Hnn Hbad).
Qed.

Lemma gemini_needs_string_roles_witness :
  ProviderRoute.POST (replying_host (Some (lit "Hello!")))
    (provider_request "gemini"
       [chat_message "user" "hi"; JObj [field "content" (JStr (lit "no role"))]]) start
  = (NextResponse_json (Failure (lit "Internal server error")) 500, start).
Proof.
  apply (gemini_needs_string_roles (replying_host (Some (lit "Hello!"))) start
           (JObj [field "provider" (JStr (lit "gemini"));
                  field "messages"
                    (JArr [chat_message "user" "hi";
                           JObj [field "content" (JStr (lit "no role"))]])])
           _ (lit "g-test") eq_refl eq_refl eq_refl eq_refl eq_refl eq_refl).
  vm_compute. discriminate.
Defined.

(** ** Further properties of the mock routes *)

(** On a host that has [crypto.randomUUID] the two revisions of the mock
    route give the same answer, id included, to every request and read
    the host equally often; on a host without it the older revision
    answers an accepted prompt with the 500 of its [catch] block while the
    revision with the safe id answers 200 under the id
    [`${timePart}-${randomPart}`]. *)
Theorem mock_revisions_compared host st :
  (forall uuid req, crypto_randomUUID host = Some uuid ->
     fst (MockRoute.POST host req st) = fst (MockRouteSafeId.POST host req st) /\
     tick (snd (MockRoute.POST host req st))
     = tick (snd (MockRouteSafeId.POST host req st)))
  /\ (forall body raw, crypto_randomUUID host = None ->
        get_field body "prompt" = Ok (Some (JStr raw)) -> trim raw <> [] ->
        MockRoute.POST host {| json := Ok body |} st
        = (NextResponse_json (Failure (lit "Internal server error")) 500, st) /\
        fst (MockRouteSafeId.POST host {| json := Ok body |} st)
        = NextResponse_json
            (Success {| id := Date_now_toString16 host (S (tick st)) ++ lit "-"
                              ++ skipn 2 (Math_random_toString16 host (tick st));
                        role := assistant;
                        content := mock_content raw;
                        createdAt := Date_toISOString host (S (S (tick st))) |}) 200).
Proof.
  split.
  - intros uuid [[body|]] Hu; [|split; reflexivity].
    unfold_handler. simpl. rewrite Hu.
    destruct (get_field body "prompt") as [v|]; simpl; [|split; reflexivity].
    destruct (as_string v) as [raw|]; simpl; [|split; reflexivity].
    destruct (length (trim raw) =? 0); split; reflexivity.
  - intros body raw Hu Hp Hne.
    unfold_handler. simpl. rewrite Hp. simpl.
    rewrite (trim_nonempty_test raw Hne), Hu. simpl. split; reflexivity.
Qed.

Lemma mock_revisions_compared_witness :
  MockRoute.POST legacy_host (mock_request "abc" []) start
  = (NextResponse_json (Failure (lit "Internal server error")) 500, start) /\
  fst (MockRouteSafeId.POST legacy_host (mock_request "abc" []) start)
  = NextResponse_json
      (Success {| id := Date_now_toString16 legacy_host 1 ++ lit "-"
                        ++ skipn 2 (Math_random_toString16 legacy_host 0);
                  role := assistant;
                  content := mock_content (lit "abc");
                  createdAt := Date_toISOString legacy_host 2 |}) 200.
Proof.
  apply (proj2 (mock_revisions_compared legacy_host start)
           (JObj [field "prompt" (JStr (lit "abc")); field "messages" (JArr [])])
           (lit "abc")).
  - reflexivity.
  - reflexivity.
  - vm_compute. discriminate.
Defined.

(** The mock route with the safe id answers 500 exactly when the body
    cannot be read (it is not parseable JSON, or it is [null]); it never
    calls a provider, and it leaves the log alone unless it answers 500,
    when it logs the error. *)
Theorem safe_mock_route_500_iff host st req :
  let out := MockRouteSafeId.POST host req st in
  (status (fst out) = 500 <-> (json req = Throw \/ json req = Ok JNull)) /\
  (status (fst out) <> 500 -> outbound (snd out) = outbound st) /\
  (status (fst out) = 500 -> outbound (snd out) = outbound st ++ [console_error]).
Proof.
  destruct req as [[body|]]; [|vm_compute; intuition discriminate].
  destruct body; try (unfold_handler; simpl; intuition discriminate).
  unfold_handler. simpl.
  destruct (as_string _) as [raw|]; simpl; [|intuition discriminate].
  destruct (length (trim raw) =? 0); simpl; [intuition discriminate|].
  destruct (crypto_randomUUID host); simpl; intuition discriminate.
Qed.

Lemma token_starts_bound (s : jsstring) (after_space : bool) :
  2 * token_starts after_space s <= length s + (if after_space then 1 else 0).
Proof.
  revert after_space. induction s as [|c r IH]; intros b; simpl; [lia|].
  specialize (IH (is_space c)).
  destruct b, (is_space c); simpl in *; lia.
Qed.

(** The statistics of a reply are consistent: for every prompt the mock
    routes accept, the word count is at least 1, twice the word count is
    at most the character count plus one (so words never exceed
    characters), and the character count is at most the length of the
    submitted prompt. *)
Theorem mock_counts_bounds (raw : jsstring) :
  trim raw <> [] ->
  1 <= MockReply.wordCount (trim raw) /\
  2 * MockReply.wordCount (trim raw) <= MockReply.charCount (trim raw) + 1 /\
  MockReply.wordCount (trim raw) <= MockReply.charCount (trim raw) /\
  MockReply.charCount (trim raw) <= length raw.
Proof.
  intros Hne.
  pose proof (wordCount_trim_positive raw Hne) as H1.
  pose proof (token_starts_bound (trim raw) true) as H2.
  pose proof (trim_length raw) as H3.
  rewrite wordCount_tokens in *. unfold whitespace_delimited_tokens in *.
  unfold MockReply.charCount. lia.
Qed.

Lemma mock_counts_bounds_witness :
  1 <= MockReply.wordCount (trim (lit " a b  c ")) /\
  2 * MockReply.wordCount (trim (lit " a b  c "))
  <= MockReply.charCount (trim (lit " a b  c ")) + 1 /\
  MockReply.wordCount (trim (lit " a b  c ")) <= MockReply.charCount (trim (lit " a b  c ")) /\
  MockReply.charCount (trim (lit " a b  c ")) <= length (lit " a b  c ").
Proof.
  apply (mock_counts_bounds (lit " a b  c ")). vm_compute. discriminate.
Defined.

(** ** Properties of the chat page *)

Lemma dropWhile_fixed {A : Type} (f : A -> bool) (l : list A) :
  dropWhile f (dropWhile f l) = dropWhile f l.
Proof.
  induction l as [|x r IH]; simpl; [reflexivity|].
  destruct (f x) eqn:E; [exact IH | simpl; now rewrite E].
Qed.

Lemma trim_idempotent (s : jsstring) : trim (trim s) = trim s.
Proof.
  destruct (list_eq_dec N.eq_dec (trim s) []) as [E | Hne]; [now rewrite E|].
  destruct (trim_head s Hne) as [c [r [Hs Hc]]].
  assert (Hstart : trimStart (trim s) = trim s).
  { rewrite Hs. unfold trimStart. simpl. now rewrite Hc. }
  unfold trim at 1. rewrite Hstart.
  unfold trim, trimEnd. rewrite rev_involutive. now rewrite dropWhile_fixed.
Qed.

(** Submitting a blank input, or submitting while a request is in flight,
    sends nothing and changes nothing, except that [setError(null)] has
    already cleared the error; both pages agree. *)
Theorem blank_or_busy_submit_only_clears_error browser provider p st :
  trim (input p) = [] \/ isLoading p = true ->
  let unchanged :=
    {| page := {| messages := messages p; input := input p;
                  isLoading := isLoading p; error := None |};
       fulfilled := true; sent := []; clock := st |} in
  MockPage.handleSubmit browser p st = unchanged /\
  ProviderPage.handleSubmit browser provider p st = unchanged.
Proof.
  intros H. unfold MockPage.handleSubmit, ProviderPage.handleSubmit.
  assert (negb (Boolean_str (trim (input p))) || isLoading p = true) as ->.
  { destruct H as [-> | ->]; [reflexivity | apply orb_true_r]. }
  now split.
Qed.

Lemma blank_or_busy_submit_only_clears_error_witness :
  let browser := {| browser_host := quiet_host;
                    fetch := fun _ => Rejected Not_an_Error;
                    null_read_message := fun _ => [] |} in
  let p := {| messages := [Some (chat_message "user" "hi")]; input := lit "next";
              isLoading := true; error := Some (lit "Request failed") |} in
  let unchanged :=
    {| page := {| messages := messages p; input := input p;
                  isLoading := isLoading p; error := None |};
       fulfilled := true; sent := []; clock := start |} in
  MockPage.handleSubmit browser p start = unchanged /\
  ProviderPage.handleSubmit browser ProviderPage.gemini p start = unchanged.
Proof.
  apply (blank_or_busy_submit_only_clears_error
           {| browser_host := quiet_host;
              fetch := fun _ => Rejected Not_an_Error;
              null_read_message := fun _ => [] |}
           ProviderPage.gemini
           {| messages := [Some (chat_message "user" "hi")]; input := lit "next";
              isLoading := true; error := Some (lit "Request failed") |} start).
  right. reflexivity.
Defined.

Lemma accepted_input_test (p : Page) :
  trim (input p) <> [] -> isLoading p = false ->
  negb (Boolean_str (trim (input p))) || isLoading p = false.
Proof.
  intros Hne ->. destruct (trim (input p)); [now elim Hne | reflexivity].
Qed.



(** An accepted submission on the provider page (input not blank, no
    request in flight) always runs to the end, with or without
    [crypto.randomUUID]: it sends exactly one request, naming the selected
    provider and carrying the earlier messages followed by the user's new
    message; it leaves the input empty and loading off, keeps every earlier
    message, appends the user's message, and then either appends a reply
    (never a falsy one) and shows no error, or appends nothing more and
    shows an error. *)
Theorem provider_page_submit browser provider p st :
  trim (input p) <> [] -> isLoading p = false ->
  let run := ProviderPage.handleSubmit browser provider p st in
  exists new_id stamp,
    let mine := user_message new_id (trim (input p)) stamp in
    fulfilled run = true /\
    sent run = [JObj [(lit "provider", JStr (ProviderPage.provider_name provider));
                      (lit "messages",
                       JArr (map (fun v => JSON_stringify (array_slot v))
                               (messages p ++ [Some mine])))]] /\
    input (page run) = [] /\ isLoading (page run) = false /\
    ((exists reply, truthy reply = true /\
                    messages (page run) = messages p ++ [Some mine; reply] /\
                    error (page run) = None) \/
     (exists text, messages (page run) = messages p ++ [Some mine] /\
                   error (page run) = Some text)).
Proof.
  intros Hne Hidle. unfold ProviderPage.handleSubmit.
  rewrite (accepted_input_test p Hne Hidle).
  destruct (generateId (browser_host browser) st) as [[new_id|] st1] eqn:Hid.
  2:{ exfalso. revert Hid. unfold generateId, bind, ask, ret.
      destruct (crypto_randomUUID _); discriminate. }
  unfold now_ISO, ask. cbv beta iota zeta.
  exists new_id, (Date_toISOString (browser_host browser) (tick st1)).
  repeat split.
  - simpl. now rewrite map_map.
  - unfold settle. destruct (ProviderPage.attempt _ _); reflexivity.
  - unfold settle. destruct (ProviderPage.attempt _ _); reflexivity.
  - unfold settle.
    destruct (ProviderPage.attempt _ _) as [reply|e] eqn:Ha; simpl.
    + left. exists reply. rewrite <- app_assoc. repeat split.
      revert Ha. unfold ProviderPage.attempt.
      destruct (fetch browser _) as [res|]; [|discriminate].
      destruct (negb (res_ok res)); [discriminate|].
      destruct (truthy _) eqn:Ht; simpl; [|discriminate].
      now intros [= <-].
    + right. eexists. now split.
Qed.

Lemma provider_page_submit_witness :
  let browser := {| browser_host := legacy_host;
                    fetch := fun _ => Rejected Not_an_Error;
                    null_read_message := fun _ => [] |} in
  let p := {| messages := []; input := lit "hello";
              isLoading := false; error := Some (lit "old") |} in
  let run := ProviderPage.handleSubmit browser ProviderPage.openai p start in
  exists new_id stamp,
    let mine := user_message new_id (trim (input p)) stamp in
    fulfilled run = true /\
    sent run = [JObj [(lit "provider", JStr (ProviderPage.provider_name ProviderPage.openai));
                      (lit "messages",
                       JArr (map (fun v => JSON_stringify (array_slot v))
                               (messages p ++ [Some mine])))]] /\
    input (page run) = [] /\ isLoading (page run) = false /\
    ((exists reply, truthy reply = true /\
                    messages (page run) = messages p ++ [Some mine; reply] /\
                    error (page run) = None) \/
     (exists text, messages (page run) = messages p ++ [Some mine] /\
                   error (page run) = Some text)).
Proof.
  apply (provider_page_submit
           {| browser_host := legacy_host;
              fetch := fun _ => Rejected Not_an_Error;
              null_read_message := fun _ => [] |}
           ProviderPage.openai
           {| messages := []; input := lit "hello";
              isLoading := false; error := Some (lit "old") |} start).
  - vm_compute. discriminate.
  - reflexivity.
Defined.

(** The error the mock page shows for an answer that is not ok: the
    server's [error] when it is a non-empty string; [Request failed] when
    the body is readable JSON without one; and
    [Request failed with status N] when the body is not parseable or is
    [null]. *)
Theorem mock_page_error_text browser p st uuid res :
  trim (input p) <> [] -> isLoading p = false ->
  crypto_randomUUID (browser_host browser) = Some uuid ->
  (forall body, fetch browser body = Resolved res) -> res_ok res = false ->
  let shown := error (page (MockPage.handleSubmit browser p st)) in
  (forall data text,
      res_json res = Resolved data ->
      get_field data "error" = Ok (Some (JStr text)) -> text <> [] ->
      shown = Some text)
  /\ (forall data,
      res_json res = Resolved data -> data <> JNull ->
      (forall text, get_field data "error" = Ok (Some (JStr text)) -> text = []) ->
      shown = Some (lit "Request failed"))
  /\ ((res_json res = Resolved JNull \/ exists e, res_json res = Rejected e) ->
      shown = Some (lit "Request failed with status " ++ decimal (res_status res))).
Proof.
  intros Hne Hidle Hu Hfetch Hok. unfold MockPage.handleSubmit.
  rewrite (accepted_input_test p Hne Hidle).
  unfold randomUUID, now_ISO, ask. rewrite Hu. cbv beta iota zeta.
  unfold MockPage.attempt. rewrite Hfetch, Hok. simpl negb. cbv iota.
  split; [|split].
  - intros data text -> -> Htext. simpl.
    destruct text; [now elim Htext | reflexivity].
  - intros data -> Hdata Hnone. simpl.
    destruct (get_field data "error") as [v|] eqn:E.
    + destruct v as [[| | |text| |]|]; try reflexivity.
      simpl. now rewrite (Hnone text eq_refl).
    + destruct data; try discriminate. now elim Hdata.
  - intros [-> | [e ->]]; reflexivity.
Qed.

Lemma mock_page_error_text_witness :
  let res := {| res_ok := false; res_status := 400;
                res_json := Resolved (JObj [(lit "error", JStr (lit "Prompt is required"))]) |} in
  let browser := {| browser_host := quiet_host; fetch := fun _ => Resolved res;
                    null_read_message := fun _ => [] |} in
  let p := {| messages := []; input := lit "x"; isLoading := false; error := None |} in
  error (page (MockPage.handleSubmit browser p start)) = Some (lit "Prompt is required").
Proof.
  apply (proj1 (mock_page_error_text
           {| browser_host := quiet_host;
              fetch := fun _ =>
                Resolved {| res_ok := false; res_status := 400;
                            res_json := Resolved (JObj [(lit "error",
                                                        JStr (lit "Prompt is required"))]) |};
              null_read_message := fun _ => [] |}
           {| messages := []; input := lit "x"; isLoading := false; error := None |}
           start (fun t => lit "uuid-" ++ decimal t) _
           ltac:(vm_compute; discriminate) eq_refl eq_refl (fun _ => eq_refl) eq_refl)
           (JObj [(lit "error", JStr (lit "Prompt is required"))])
           (lit "Prompt is required")).
  - reflexivity.
  - reflexivity.
  - vm_compute. discriminate.
Defined.

(** The error the provider page shows.  For an answer that is not ok: the
    server's [error] when it is a string, the empty string included, and
    [Request failed with status N] when the body is not parseable, is
    [null], or has no [error] (or a [null] one).  For an ok answer without
    a truthy [message]: [No message returned from the LLM API]. *)
Theorem provider_page_error_text browser provider p st res :
  trim (input p) <> [] -> isLoading p = false ->
  (forall body, fetch browser body = Resolved res) ->
  let shown := error (page (ProviderPage.handleSubmit browser provider p st)) in
  (forall data text,
      res_ok res = false -> res_json res = Resolved data ->
      get_field data "error" = Ok (Some (JStr text)) ->
      shown = Some text)
  /\ (res_ok res = false ->
      (res_json res = Resolved JNull \/ (exists e, res_json res = Rejected e) \/
       (exists data, res_json res = Resolved data /\
                     (get_field data "error" = Ok None \/
                      get_field data "error" = Ok (Some JNull)))) ->
      shown = Some (lit "Request failed with status " ++ decimal (res_status res)))
  /\ (res_ok res = true ->
      (res_json res = Resolved JNull \/ (exists e, res_json res = Rejected e) \/
       (exists data v, res_json res = Resolved data /\
                       get_field data "message" = Ok v /\ truthy v = false)) ->
      shown = Some (lit "No message returned from the LLM API")).
Proof.
  intros Hne Hidle Hfetch. unfold ProviderPage.handleSubmit.
  rewrite (accepted_input_test p Hne Hidle).
  destruct (generateId (browser_host browser) st) as [[new_id|] st1] eqn:Hid.
  2:{ exfalso. revert Hid. unfold generateId, bind, ask, ret.
      destruct (crypto_randomUUID _); discriminate. }
  unfold now_ISO, ask. cbv beta iota zeta.
  unfold ProviderPage.attempt. rewrite Hfetch.
  split; [|split].
  - intros data text -> -> Hfield. simpl negb. cbv iota.
    unfold ProviderPage.optional_field. rewrite Hfield.
    destruct data; try discriminate; reflexivity.
  - intros -> Hcase. simpl negb. cbv iota.
    destruct Hcase as [-> | [[e ->] | [data [-> [Hf | Hf]]]]]; try reflexivity;
      unfold ProviderPage.optional_field; rewrite Hf;
      destruct data; try discriminate; reflexivity.
  - intros -> Hcase. simpl negb. cbv iota.
    destruct Hcase as [-> | [[e ->] | [data [v [-> [Hf Hv]]]]]]; try reflexivity.
    unfold ProviderPage.optional_field. rewrite Hf.
    destruct data; try discriminate; simpl; rewrite ?Hv; reflexivity.
Qed.

Lemma provider_page_error_text_witness :
  let res := {| res_ok := false; res_status := 500;
                res_json := Resolved (JObj [(lit "error", JStr (lit "Internal server error"))]) |} in
  let browser := {| browser_host := quiet_host; fetch := fun _ => Resolved res;
                    null_read_message := fun _ => [] |} in
  let p := {| messages := []; input := lit "x"; isLoading := false; error := None |} in
  error (page (ProviderPage.handleSubmit browser ProviderPage.openai p start))
  = Some (lit "Internal server error").
Proof.
  apply (proj1 (provider_page_error_text
           {| browser_host := quiet_host;
              fetch := fun _ =>
                Resolved {| res_ok := false; res_status := 500;
                            res_json := Resolved (JObj [(lit "error",
                                                        JStr (lit "Internal server error"))]) |};
              null_read_message := fun _ => [] |}
           ProviderPage.openai
           {| messages := []; input := lit "x"; isLoading := false; error := None |}
           start _
           ltac:(vm_compute; discriminate) eq_refl (fun _ => eq_refl))
           (JObj [(lit "error", JStr (lit "Internal server error"))])
           (lit "Internal server error")); reflexivity.
Defined.

(** ** The page and the route together *)

Lemma ok_status_test (code : nat) :
  code = 200 -> (200 <=? code) && (code <=? 299) = true.
Proof. now intros ->. Qed.

(** The mock page served by the mock route with the safe id: an accepted
    submission ends with the earlier messages, the user's message and the
    assistant's reply to it, whose content is the mock reply to the input
    as typed (the page trims it, the route trims it again); the input is
    empty, loading is off and no error is shown.  Both new entries are
    well-typed chat messages. *)
Theorem mock_page_round_trip host server browser p st uuid :
  (forall body, fetch browser body = served_by (MockRouteSafeId.POST host) server body) ->
  trim (input p) <> [] -> isLoading p = false ->
  crypto_randomUUID (browser_host browser) = Some uuid ->
  let mine := user_message (uuid (tick st)) (trim (input p))
                (Date_toISOString (browser_host browser) (S (tick st))) in
  exists reply,
    role reply = assistant /\ content reply = mock_content (input p) /\
    page (MockPage.handleSubmit browser p st)
    = {| messages := messages p ++ [Some mine; Some (encode_message reply)];
         input := []; isLoading := false; error := None |} /\
    is_chat_message mine = true /\ is_chat_message (encode_message reply) = true.
Proof.
  intros Hfetch Hne Hidle Hu mine.
  assert (Hne' : trim (trim (input p)) <> []) by now rewrite trim_idempotent.
  pose proof (safe_mock_accepts host server
                (JSON_stringify
                   (JObj [(lit "messages", JArr (map array_slot (messages p)));
                          (lit "prompt", JStr (trim (input p)))]))
                (trim (input p)) eq_refl Hne') as [Hs [reply [Hpay [Hrole Hc]]]].
  exists reply. split; [exact Hrole|]. split.
  { rewrite Hc. unfold mock_content. now rewrite trim_idempotent. }
  split; [|split; [reflexivity | unfold encode_message; now rewrite Hrole]].
  unfold MockPage.handleSubmit.
  rewrite (accepted_input_test p Hne Hidle).
  unfold randomUUID, now_ISO, ask. rewrite Hu. cbv beta iota zeta.
  unfold MockPage.attempt. rewrite Hfetch. unfold served_by.
  cbv beta zeta. unfold res_ok, res_json. cbv beta iota.
  rewrite (ok_status_test _ Hs), Hpay. simpl. now rewrite <- app_assoc.
Qed.

Lemma mock_page_round_trip_witness :
  let browser := {| browser_host := quiet_host;
                    fetch := served_by (MockRouteSafeId.POST legacy_host) later;
                    null_read_message := fun _ => [] |} in
  let p := {| messages := []; input := lit " hello  world ";
              isLoading := false; error := Some (lit "old") |} in
  let mine := user_message (lit "uuid-0") (trim (lit " hello  world "))
                (lit "2024-01-01T00:00:00.1Z") in
  exists reply,
    role reply = assistant /\ content reply = mock_content (lit " hello  world ") /\
    page (MockPage.handleSubmit browser p start)
    = {| messages := messages p ++ [Some mine; Some (encode_message reply)];
         input := []; isLoading := false; error := None |} /\
    is_chat_message mine = true /\ is_chat_message (encode_message reply) = true.
Proof.
  apply (mock_page_round_trip legacy_host later
           {| browser_host := quiet_host;
              fetch := served_by (MockRouteSafeId.POST legacy_host) later;
              null_read_message := fun _ => [] |}
           {| messages := []; input := lit " hello  world ";
              isLoading := false; error := Some (lit "old") |}
           start (fun t => lit "uuid-" ++ decimal t)).
  - intros body. reflexivity.
  - vm_compute. discriminate.
  - reflexivity.
  - reflexivity.
Defined.

Lemma page_request_valid (old : list JSValue) (mine : JValue) :
  forallb stored_object old = true -> has_role_user mine = true ->
  let items := map JSON_stringify (map array_slot (old ++ [Some mine])) in
  forallb not_null items = true /\ existsb has_role_user items = true.
Proof.
  intros Hold Hmine. simpl. rewrite !map_app. split.
  - rewrite forallb_app. apply andb_true_intro. split.
    + rewrite forallb_forall in *. intros x Hx.
      apply in_map_iff in Hx as [y [<- Hy]].
      apply in_map_iff in Hy as [v [<- Hv]].
      specialize (Hold v Hv). destruct v as [[]|]; try discriminate. reflexivity.
    + simpl. destruct mine; try discriminate. reflexivity.
  - rewrite existsb_app. apply orb_true_intro. right. simpl.
    destruct mine as [| | | | |fields]; try discriminate.
    simpl in *. apply orb_true_intro. left.
    revert Hmine. unfold strict_eq.
    induction fields as [|[k x] fields IH]; simpl; [discriminate|].
    destruct (jsstring_eqb k (lit "role")); [|exact IH].
    destruct x; try discriminate. trivial.
Qed.

Lemma provider_block_status host items provider st :
  status (fst (try_catch
                 (if strict_eq provider "openai"
                  then ProviderRoute.answer_openai host items
                  else ProviderRoute.answer_gemini host items)
                 (fun st' => (internal_error, st')) st)) <> 400.
Proof.
  unfold_handler. unfold bind, ret, ask. cbv beta iota.
  case_split_handler; simpl; discriminate.
Qed.

(** The request the provider page builds always passes the route's
    validation when the stored messages are objects: it names one of the
    two providers and its messages end with the user's new message, so
    the route never answers it with status 400. *)
Theorem provider_page_request_never_400 host server browser provider p st body :
  trim (input p) <> [] -> isLoading p = false ->
  forallb stored_object (messages p) = true ->
  In body (sent (ProviderPage.handleSubmit browser provider p st)) ->
  status (fst (ProviderRoute.POST host {| json := Ok body |} server)) <> 400.
Proof.
  intros Hne Hidle Hold. unfold ProviderPage.handleSubmit.
  rewrite (accepted_input_test p Hne Hidle).
  destruct (generateId (browser_host browser) st) as [[new_id|] st1];
    [|now intros []].
  unfold now_ISO, ask. cbv beta iota zeta. simpl sent.
  intros [<- | []].
  set (mine := user_message new_id (trim (input p))
                 (Date_toISOString (browser_host browser) (tick st1))).
  destruct (page_request_valid (messages p) mine Hold eq_refl) as [Hnn Hu].
  rewrite (dispatch host server _ (Some (JStr (ProviderPage.provider_name provider)))
             (map JSON_stringify (map array_slot (messages p ++ [Some mine])))).
  - apply provider_block_status.
  - reflexivity.
  - destruct provider; reflexivity.
  - reflexivity.
  - exact Hnn.
  - exact Hu.
Qed.

Lemma provider_page_request_never_400_witness :
  let browser := {| browser_host := quiet_host;
                    fetch := fun _ => Rejected Not_an_Error;
                    null_read_message := fun _ => [] |} in
  let p := {| messages := [Some (chat_message "assistant" "welcome")];
              input := lit "hello"; isLoading := false; error := None |} in
  let body := JSON_stringify
                (JObj [(lit "provider", JStr (lit "gemini"));
                       (lit "messages",
                        JArr [chat_message "assistant" "welcome";
                              user_message (lit "uuid-0") (lit "hello")
                                (lit "2024-01-01T00:00:00.1Z")])]) in
  status (fst (ProviderRoute.POST quiet_host {| json := Ok body |} later)) <> 400.
Proof.
  apply (provider_page_request_never_400 quiet_host later
           {| browser_host := quiet_host;
              fetch := fun _ => Rejected Not_an_Error;
              null_read_message := fun _ => [] |}
           ProviderPage.gemini
           {| messages := [Some (chat_message "assistant" "welcome")];
              input := lit "hello"; isLoading := false; error := None |} start).
  - vm_compute. discriminate.
  - reflexivity.
  - reflexivity.
  - left. reflexivity.
Defined.

Ltac enter_provider_page Hne Hidle :=
  unfold ProviderPage.handleSubmit;
  rewrite (accepted_input_test _ Hne Hidle);
  let new_id := fresh "new_id" in
  let st1 := fresh "st1" in
  let Hid := fresh "Hid" in
  destruct (generateId _ _) as [[new_id|] st1] eqn:Hid;
  [|exfalso; revert Hid; unfold generateId, bind, ask, ret;
    destruct (crypto_randomUUID _); discriminate];
  unfold now_ISO, ask; cbv beta iota zeta.

(** The provider page served by the provider route on a server without
    the credential of the selected provider: the user's message stays in
    the list, nothing is appended after it, loading ends, and the error
    shown is the route's own text naming the missing key. *)
Theorem provider_page_shows_missing_key host server browser provider p st :
  (forall body, fetch browser body = served_by (ProviderRoute.POST host) server body) ->
  trim (input p) <> [] -> isLoading p = false ->
  forallb stored_object (messages p) = true ->
  match provider with
  | ProviderPage.openai => OPENAI_API_KEY host = None
  | ProviderPage.gemini => GOOGLE_API_KEY host = None
  end ->
  let after := page (ProviderPage.handleSubmit browser provider p st) in
  error after
  = Some (match provider with
          | ProviderPage.openai => lit "OPENAI_API_KEY is not configured on the server"
          | ProviderPage.gemini => lit "GOOGLE_API_KEY is not configured on the server"
          end) /\
  (exists mine, has_role_user mine = true /\
                messages after = messages p ++ [Some mine]) /\
  isLoading after = false /\ input after = [].
Proof.
  intros Hfetch Hne Hidle Hold Hkey.
  enter_provider_page Hne Hidle.
  set (mine := user_message new_id (trim (input p))
                 (Date_toISOString (browser_host browser) (tick st1))).
  destruct (page_request_valid (messages p) mine Hold eq_refl) as [Hnn Hu].
  unfold ProviderPage.attempt. rewrite Hfetch. unfold served_by.
  cbv beta zeta. unfold res_ok, res_json, res_status. cbv beta iota.
  rewrite (dispatch host server _ (Some (JStr (ProviderPage.provider_name provider)))
             (map JSON_stringify (map array_slot (messages p ++ [Some mine]))));
    [| reflexivity | destruct provider; reflexivity | reflexivity | exact Hnn | exact Hu].
  destruct provider.
  - change (strict_eq (Some (JStr (ProviderPage.provider_name ProviderPage.openai)))
              "openai") with true. cbv iota.
    unfold ProviderRoute.answer_openai, ProviderRoute.getOpenAIClient.
    rewrite Hkey. simpl. repeat split. exists mine. now split.
  - change (strict_eq (Some (JStr (ProviderPage.provider_name ProviderPage.gemini)))
              "openai") with false. cbv iota.
    unfold ProviderRoute.answer_gemini, ProviderRoute.getGeminiClient.
    rewrite Hkey. simpl. repeat split. exists mine. now split.
Qed.

Lemma provider_page_shows_missing_key_witness :
  let browser := {| browser_host := legacy_host;
                    fetch := served_by (ProviderRoute.POST quiet_host) later;
                    null_read_message := fun _ => [] |} in
  let p := {| messages := [Some (chat_message "assistant" "welcome")];
              input := lit "hello"; isLoading := false; error := None |} in
  let after := page (ProviderPage.handleSubmit browser ProviderPage.gemini p start) in
  error after = Some (lit "GOOGLE_API_KEY is not configured on the server") /\
  (exists mine, has_role_user mine = true /\
                messages after = messages p ++ [Some mine]) /\
  isLoading after = false /\ input after = [].
Proof.
  apply (provider_page_shows_missing_key quiet_host later
           {| browser_host := legacy_host;
              fetch := served_by (ProviderRoute.POST quiet_host) later;
              null_read_message := fun _ => [] |}
           ProviderPage.gemini
           {| messages := [Some (chat_message "assistant" "welcome")];
              input := lit "hello"; isLoading := false; error := None |} start).
  - intros body. reflexivity.
  - vm_compute. discriminate.
  - reflexivity.
  - reflexivity.
  - reflexivity.
Defined.

(** The provider page served by the provider route with the OpenAI key
    configured and the service answering: the page ends with the earlier
    messages, the user's message and an assistant message whose content is
    the service's first completion, or the fallback text when that is
    missing; no error is shown and loading is off. *)
Theorem provider_page_openai_round_trip host server browser p st key completion :
  (forall body, fetch browser body = served_by (ProviderRoute.POST host) server body) ->
  trim (input p) <> [] -> isLoading p = false ->
  forallb stored_object (messages p) = true ->
  OPENAI_API_KEY host = Some key -> key <> [] ->
  (forall params, chat_completions_create host (tick server) params = Ok completion) ->
  let after := page (ProviderPage.handleSubmit browser ProviderPage.openai p st) in
  exists mine reply,
    has_role_user mine = true /\ role reply = assistant /\
    content reply
    = match ProviderRoute.first_content completion with
      | Some text => text
      | None => lit "I could not generate a response."
      end /\
    messages after = messages p ++ [Some mine; Some (encode_message reply)] /\
    error after = None /\ isLoading after = false /\ input after = [].
Proof.
  intros Hfetch Hne Hidle Hold Hk Hkey Hcreate.
  enter_provider_page Hne Hidle.
  set (mine := user_message new_id (trim (input p))
                 (Date_toISOString (browser_host browser) (tick st1))).
  destruct (page_request_valid (messages p) mine Hold eq_refl) as [Hnn Hu].
  unfold ProviderPage.attempt. rewrite Hfetch. unfold served_by.
  cbv beta zeta. unfold res_ok, res_json, res_status. cbv beta iota.
  rewrite (dispatch host server _ (Some (JStr (lit "openai")))
             (map JSON_stringify (map array_slot (messages p ++ [Some mine]))));
    [| reflexivity | reflexivity | reflexivity | exact Hnn | exact Hu].
  change (strict_eq (Some (JStr (lit "openai"))) "openai") with true. cbv iota.
  unfold ProviderRoute.answer_openai, ProviderRoute.getOpenAIClient.
  rewrite Hk, (nonempty_is_truthy key Hkey). unfold_handler. unfold bind, ret. simpl.
  rewrite (js_map_openai_forwarded _ Hnn). simpl. rewrite Hcreate.
  exists mine.
  destruct (crypto_randomUUID host); simpl;
    (eexists {| id := _; role := assistant;
                content := ProviderRoute.nullish
                             (ProviderRoute.first_content completion)
                             ProviderRoute.fallback;
                createdAt := _ |};
     split; [reflexivity|]; split; [reflexivity|];
     split; [simpl; unfold ProviderRoute.nullish;
             destruct (ProviderRoute.first_content completion); reflexivity|];
     split; [now rewrite <- app_assoc|]; repeat split).
Qed.

Lemma provider_page_openai_round_trip_witness :
  let host := replying_host (Some (lit "Hello!")) in
  let browser := {| browser_host := quiet_host;
                    fetch := served_by (ProviderRoute.POST host) later;
                    null_read_message := fun _ => [] |} in
  let p := {| messages := []; input := lit "hi"; isLoading := false; error := None |} in
  let completion := {| choices := [{| ch_message := Some {| cm_content := Some (lit "Hello!") |} |}] |} in
  let after := page (ProviderPage.handleSubmit browser ProviderPage.openai p start) in
  exists mine reply,
    has_role_user mine = true /\ role reply = assistant /\
    content reply
    = match ProviderRoute.first_content completion with
      | Some text => text
      | None => lit "I could not generate a response."
      end /\
    messages after = messages p ++ [Some mine; Some (encode_message reply)] /\
    error after = None /\ isLoading after = false /\ input after = [].
Proof.
  apply (provider_page_openai_round_trip (replying_host (Some (lit "Hello!"))) later
           {| browser_host := quiet_host;
              fetch := served_by (ProviderRoute.POST (replying_host (Some (lit "Hello!")))) later;
              null_read_message := fun _ => [] |}
           {| messages := []; input := lit "hi"; isLoading := false; error := None |}
           start (lit "sk-test")).
  - intros body. reflexivity.
  - vm_compute. discriminate.
  - reflexivity.
  - reflexivity.
  - reflexivity.
  - vm_compute. discriminate.
  - intros params. reflexivity.
Defined.

(** ** Further edge cases *)

Lemma safe_mock_route_500_iff_witness :
  status (fst (MockRouteSafeId.POST quiet_host {| json := Ok JNull |} start)) = 500 /\
  outbound (snd (MockRouteSafeId.POST quiet_host {| json := Ok JNull |} start))
  = outbound start ++ [console_error].
Proof.
  pose proof (safe_mock_route_500_iff quiet_host start {| json := Ok JNull |}) as H.
  cbv zeta in H. destruct H as [[_ Hback] [_ Hlog]].
  assert (Hs : status (fst (MockRouteSafeId.POST quiet_host {| json := Ok JNull |} start)) = 500)
    by (apply Hback; right; reflexivity).
  split; [exact Hs | exact (Hlog Hs)].
Defined.

(** A credential that is set to the empty string counts as absent: a
    validated request gets the same 500 naming the key, and no call is
    made. *)
Theorem empty_credential_counts_as_absent host st body items :
  get_field body "messages" = Ok (Some (JArr items)) ->
  forallb not_null items = true -> existsb has_role_user items = true ->
  (get_field body "provider" = Ok (Some (JStr (lit "openai"))) ->
   OPENAI_API_KEY host = Some [] ->
   ProviderRoute.POST host {| json := Ok body |} st
   = (NextResponse_json
        (Failure (lit "OPENAI_API_KEY is not configured on the server")) 500, st))
  /\ (get_field body "provider" = Ok (Some (JStr (lit "gemini"))) ->
      GOOGLE_API_KEY host = Some [] ->
      ProviderRoute.POST host {| json := Ok body |} st
      = (NextResponse_json
           (Failure (lit "GOOGLE_API_KEY is not configured on the server")) 500, st)).
Proof.
  intros Hm Hnn Hu. split; intros Hp Hkey.
  - rewrite (dispatch host st body _ items Hp eq_refl Hm Hnn Hu).
    change (strict_eq (Some (JStr (lit "openai"))) "openai") with true. cbv iota.
    unfold ProviderRoute.answer_openai, ProviderRoute.getOpenAIClient.
    rewrite Hkey. reflexivity.
  - rewrite (dispatch host st body _ items Hp eq_refl Hm Hnn Hu).
    change (strict_eq (Some (JStr (lit "gemini"))) "openai") with false. cbv iota.
    unfold ProviderRoute.answer_gemini, ProviderRoute.getGeminiClient.
    rewrite Hkey. reflexivity.
Qed.

Lemma empty_credential_counts_as_absent_witness :
  let host := {| OPENAI_API_KEY := Some [];
                 GOOGLE_API_KEY := Some (lit "g-test");
                 crypto_randomUUID := None;
                 Math_random_toString16 := fun _ => [];
                 Date_now_toString16 := fun _ => [];
                 Date_toISOString := fun _ => [];
                 toUpperCase := fun s => s;
                 Number_toString := fun _ => [];
                 chat_completions_create := fun _ _ => Ok {| choices := [] |};
                 generateContent := fun _ _ => Throw |} in
  ProviderRoute.POST host (provider_request "openai" [chat_message "user" "hi"]) start
  = (NextResponse_json
       (Failure (lit "OPENAI_API_KEY is not configured on the server")) 500, start).
Proof.
  apply (proj1 (empty_credential_counts_as_absent _ start
           (JObj [field "provider" (JStr (lit "openai"));
                  field "messages" (JArr [chat_message "user" "hi"])])
           [chat_message "user" "hi"] eq_refl eq_refl eq_refl)); reflexivity.
Defined.

(** A prompt that is present but is not a string (a number, a boolean,
    [null], an array, an object) is answered like a missing one by both
    revisions of the mock route: status 400, [Prompt is required], state
    untouched. *)
Theorem non_string_prompt_rejected host st body v :
  get_field body "prompt" = Ok (Some v) ->
  (forall text, v <> JStr text) ->
  let rejected := (NextResponse_json (Failure (lit "Prompt is required")) 400, st) in
  MockRoute.POST host {| json := Ok body |} st = rejected /\
  MockRouteSafeId.POST host {| json := Ok body |} st = rejected.
Proof.
  intros Hp Hv.
  apply (mock_rejects_non_string host st body (Some v) Hp).
  destruct v; try reflexivity. now elim (Hv s).
Qed.

Lemma non_string_prompt_rejected_witness :
  let body := JObj [field "prompt" (JArr [JStr (lit "hello")])] in
  let rejected := (NextResponse_json (Failure (lit "Prompt is required")) 400, start) in
  MockRoute.POST quiet_host {| json := Ok body |} start = rejected /\
  MockRouteSafeId.POST quiet_host {| json := Ok body |} start = rejected.
Proof.
  apply (non_string_prompt_rejected quiet_host start
           (JObj [field "prompt" (JArr [JStr (lit "hello")])])
           (JArr [JStr (lit "hello")])).
  - reflexivity.
  - intros text. discriminate.
Defined.

(** On a browser without [crypto.randomUUID] the mock page's submit
    throws before its [try] block: the promise is rejected, nothing is
    sent, no message is added and loading never starts; only the error has
    been cleared. *)
Theorem mock_page_without_randomUUID browser p st :
  trim (input p) <> [] -> isLoading p = false ->
  crypto_randomUUID (browser_host browser) = None ->
  MockPage.handleSubmit browser p st
  = {| page := {| messages := messages p; input := input p;
                  isLoading := false; error := None |};
       fulfilled := false; sent := []; clock := st |}.
Proof.
  intros Hne Hidle Hu. unfold MockPage.handleSubmit.
  rewrite (accepted_input_test p Hne Hidle).
  unfold randomUUID. rewrite Hu, Hidle. reflexivity.
Qed.

Lemma mock_page_without_randomUUID_witness :
  let browser := {| browser_host := legacy_host;
                    fetch := served_by (MockRouteSafeId.POST quiet_host) start;
                    null_read_message := fun _ => [] |} in
  let p := {| messages := []; input := lit "hello"; isLoading := false;
              error := Some (lit "old") |} in
  MockPage.handleSubmit browser p later
  = {| page := {| messages := messages p; input := input p;
                  isLoading := false; error := None |};
       fulfilled := false; sent := []; clock := later |}.
Proof.
  apply (mock_page_without_randomUUID
           {| browser_host := legacy_host;
              fetch := served_by (MockRouteSafeId.POST quiet_host) start;
              null_read_message := fun _ => [] |}
           {| messages := []; input := lit "hello"; isLoading := false;
              error := Some (lit "old") |} later).
  - vm_compute. discriminate.
  - reflexivity.
  - reflexivity.
Defined.


